(** * yapper_analysis: a shallow embedding of the team-activity pipeline

    The script [yapper_analysis.py] loads two tables, joins them, removes the
    teams flagged by two data-quality checks, and computes three summary
    tables.  A pandas DataFrame is modelled as the list of its rows, in row
    order; a [groupby] as the list of its groups, in the order of the sorted
    group keys; an exception raised by the script as [None]. *)

From Stdlib Require Import String Ascii.
From Stdlib Require Import ZArith QArith Floats.
From Stdlib Require Import Bool List Permutation Sorted Lia.
Import ListNotations.

Local Open Scope Z_scope.

(** ** Column values *)

(** An integer column has dtype int64: arithmetic on it wraps around. *)
Definition wrap64 (z : Z) : Z := (z + 2 ^ 63) mod 2 ^ 64 - 2 ^ 63.

(** ** Data model *)

(** One line of [team_activity.csv], with the column names [read_data] gives. *)
Record ActivityRecord := mkActivity {
  ds : string;
  team_id : Z;
  country : string;
  industry_id : Z;
  active_users : Z;
  messages_7d : Z
}.

(** One line of [industry_map.csv]. *)
Record IndustryMap := mkIndustry {
  map_industry_id : Z;
  map_industry : string
}.

(** One row of the merged frame: the activity columns and the industry name,
    which is missing (NaN) where the left join found no match. *)
Record JoinedRecord := mkJoined {
  activity : ActivityRecord;
  industry : option string
}.

Definition DataFrame := list JoinedRecord.

Definition j_ds (r : JoinedRecord) : string := ds (activity r).
Definition j_team_id (r : JoinedRecord) : Z := team_id (activity r).
Definition j_country (r : JoinedRecord) : string := country (activity r).
Definition j_industry_id (r : JoinedRecord) : Z := industry_id (activity r).
Definition j_active_users (r : JoinedRecord) : Z := active_users (activity r).
Definition j_messages_7d (r : JoinedRecord) : Z := messages_7d (activity r).

(** ** Sorting *)

(** [sort_values] is modelled by a stable insertion sort on a boolean
    "comes no later than" test.  pandas' default sort may order rows with equal
    keys differently; the theorems below speak of the order of the keys and of
    the rows present, never of the order among equal keys. *)
Section Sort.
Context {A : Type} (leb : A -> A -> bool).

Fixpoint insert_by (x : A) (l : list A) : list A :=
match l with
| [] => [x]
| y :: t => if leb x y then x :: l else y :: insert_by x t
end.

Fixpoint sort_by (l : list A) : list A :=
match l with
| [] => []
| x :: t => insert_by x (sort_by t)
end.
End Sort.

(** ** groupby *)

Section GroupBy.
Context {R K : Type}.
Variable key_dec : forall a b : K, {a = b} + {a <> b}.
Variable key_leb : K -> K -> bool.
(** The grouping column of a row; [None] is a missing value (NaN). *)
Variable key : R -> option K.

Definition has_key (k : K) (r : R) : bool :=
match key r with
| Some k' => if key_dec k' k then true else false
| None => false
end.

(** The keys present in the column, missing values dropped. *)
Definition column_keys (df : list R) : list K :=
flat_map (fun r => match key r with Some k => [k] | None => [] end) df.

(** The distinct keys in ascending order (groupby's [sort=True]). *)
Definition group_keys (df : list R) : list K :=
sort_by key_leb (nodup key_dec (column_keys df)).

(** The rows of one group, in frame order. *)
Definition group_rows (k : K) (df : list R) : list R :=
filter (has_key k) df.

(** [df.groupby(key)]: one group per distinct non-missing key. *)
Definition groupby (df : list R) : list (K * list R) :=
map (fun k => (k, group_rows k df)) (group_keys df).
End GroupBy.

Definition Z_leb_asc (a b : Z) : bool := a <=? b.

Definition groupby_team_id : DataFrame -> list (Z * list JoinedRecord) :=
  groupby Z.eq_dec Z_leb_asc (fun r => Some (j_team_id r)).

Definition groupby_country : DataFrame -> list (string * list JoinedRecord) :=
  groupby string_dec String.leb (fun r => Some (j_country r)).

Definition groupby_industry : DataFrame -> list (string * list JoinedRecord) :=
  groupby string_dec String.leb industry.

Definition groupby_ds : DataFrame -> list (string * list JoinedRecord) :=
  groupby string_dec String.leb (fun r => Some (j_ds r)).

(** ** Aggregations over one group's column *)

(** Python's [max] and [min] of a sequence: a [ValueError] on an empty one. *)
Definition py_max (l : list Z) : option Z :=
  match l with
  | [] => None
  | x :: t => Some (fold_left Z.max t x)
  end.

Definition py_min (l : list Z) : option Z :=
  match l with
  | [] => None
  | x :: t => Some (fold_left Z.min t x)
  end.

(** The ['max'] and ['min'] aggregates; a group is never empty, and the value
    for an empty column is not used. *)
Definition agg_max (l : list Z) : Z :=
  match py_max l with Some m => m | None => 0 end.

Definition agg_min (l : list Z) : Z :=
  match py_min l with Some m => m | None => 0 end.

(** The ['sum'] aggregate of an int64 column, in int64 arithmetic. *)
Definition agg_sum (l : list Z) : Z := fold_left (fun s x => wrap64 (s + x)) l 0.

(** ['count'] and ['nunique']. *)
Definition agg_count {A : Type} (l : list A) : Z := Z.of_nat (List.length l).

Definition agg_nunique (l : list Z) : Z :=
  Z.of_nat (List.length (nodup Z.eq_dec l)).

(** ** Quality filters *)

(** A row of [dau_check]: the team (the index) and the columns [min], [max]
    and [filter]. *)
Record DauCheck := mkDauCheck {
  dau_team_id : Z;
  dau_min : Z;
  dau_max : Z;
  dau_filter : Z
}.

Definition dau_check (df : DataFrame) : list DauCheck :=
  map (fun g =>
         let col := map j_active_users (snd g) in
         mkDauCheck (fst g) (agg_min col) (agg_max col)
                    (wrap64 (agg_max col + agg_max col)))
      (groupby_team_id df).

Definition check_no_active_users (df : DataFrame) : list Z :=
  let inactive_teams := filter (fun d => dau_filter d =? 0) (dau_check df) in
  map dau_team_id inactive_teams.

(** [df[~df['team_id'].isin(l)]] *)
Definition isin (l : list Z) (r : JoinedRecord) : bool :=
  existsb (Z.eqb (j_team_id r)) l.

Definition drop_teams (l : list Z) (df : DataFrame) : DataFrame :=
  filter (fun r => negb (isin l r)) df.

(** The per-team row counts: [df.groupby(['team_id'])['active_users'].count()]. *)
Definition cohort_counts (df : DataFrame) : list (Z * Z) :=
  map (fun g => (fst g, agg_count (map j_active_users (snd g))))
      (groupby_team_id df).

(** [max(cohort_chk)] raises on an empty frame, hence the [option]. *)
Definition check_consistent_cohort (df : DataFrame) : option (list Z) :=
  let cohort_chk := cohort_counts df in
  match py_max (map snd cohort_chk) with
  | None => None
  | Some m => Some (map fst (filter (fun c => negb (snd c =? m)) cohort_chk))
  end.

(** ** Loader *)

(** Python's [s.replace(old, new)] for a non-empty [old]: every occurrence,
    found scanning from the left and never overlapping, is replaced.  [skip]
    counts the characters of a matched occurrence that are still to be passed
    over. *)
Section Replace.
Variables old new : string.

Fixpoint replace_from (skip : nat) (s : string) : string :=
match s with
| EmptyString => EmptyString
| String c s' =>
    match skip with
    | S k => replace_from k s'
    | O =>
        if String.prefix old s
        then new ++ replace_from (String.length old - 1) s'
        else String c (replace_from 0 s')
    end
end.

Definition str_replace (s : string) : string := replace_from 0 s.
End Replace.

(** [ind['industry'].str.replace('Health Care', 'Healthcare')] *)
Definition conform_industry (s : string) : string :=
  str_replace "Health Care" "Healthcare" s.

Definition conform (ind : list IndustryMap) : list IndustryMap :=
  map (fun i => mkIndustry (map_industry_id i) (conform_industry (map_industry i)))
      ind.

(** The industry-map rows matching an activity row on [industry_id]. *)
Definition matches (ind : list IndustryMap) (a : ActivityRecord) : list IndustryMap :=
  filter (fun i => map_industry_id i =? industry_id a) ind.

(** [pd.merge(act, ind, how='left', on='industry_id')]: the activity rows in
    their order, each once per matching industry row, or once with a missing
    industry when nothing matches. *)
Definition merge_left (act : list ActivityRecord) (ind : list IndustryMap)
  : DataFrame :=
  flat_map (fun a =>
              match matches ind a with
              | [] => [mkJoined a None]
              | ms => map (fun i => mkJoined a (Some (map_industry i))) ms
              end) act.

(** [read_data], on the parsed contents of the two files. *)
Definition read_data (act : list ActivityRecord) (ind : list IndustryMap)
  : DataFrame :=
  merge_left act (conform ind).

(** ** Missing dates *)

(** [pd.date_range(start, end, freq='d')], dates counted in days. *)
Definition date_range (start stop : Z) : list Z :=
  map (fun i => start + Z.of_nat i) (seq 0 (Z.to_nat (stop - start + 1))).

Section Dates.
(** [pd.to_datetime] on one cell: the day the string denotes, or [None]
  where pandas raises on a string it cannot parse. *)
Variable to_datetime : string -> option Z.

Fixpoint to_datetime_all (col : list string) : option (list Z) :=
match col with
| [] => Some []
| s :: t =>
    match to_datetime s, to_datetime_all t with
    | Some d, Some ds => Some (d :: ds)
    | _, _ => None
    end
end.

(** The set [dates] is kept as the list of parsed cells: only its minimum,
  its maximum and membership in it are used. *)
Definition check_missing_dates (df : DataFrame) : option (list Z) :=
match to_datetime_all (map j_ds df) with
| None => None
| Some dates =>
    match py_min dates, py_max dates with
    | Some lo, Some hi =>
        let dt_rng := date_range lo hi in
        Some (filter (fun d => negb (existsb (Z.eqb d) dates)) dt_rng)
    | _, _ => None
    end
end.
End Dates.

(** A date parser for the format of the data file, [YYYY-MM-DD], giving the
    number of days since 1970-01-01 in the proleptic Gregorian calendar. *)
Definition digit (c : ascii) : option Z :=
  let n := Z.of_N (N_of_ascii c) in
  if (48 <=? n) && (n <=? 57) then Some (n - 48) else None.

Definition days_from_civil (y m d : Z) : Z :=
  let y' := if m <=? 2 then y - 1 else y in
  let era := y' / 400 in
  let yoe := y' - era * 400 in
  let mp := (m + 9) mod 12 in
  let doy := (153 * mp + 2) / 5 + d - 1 in
  let doe := yoe * 365 + yoe / 4 - yoe / 100 + doy in
  era * 146097 + doe - 719468.

Definition iso_date (s : string) : option Z :=
  match map digit (list_ascii_of_string s) with
  | [Some y1; Some y2; Some y3; Some y4; None;
     Some m1; Some m2; None; Some d1; Some d2] =>
      let y := 1000 * y1 + 100 * y2 + 10 * y3 + y4 in
      let m := 10 * m1 + m2 in
      let d := 10 * d1 + d2 in
      if (1 <=? m) && (m <=? 12) && (1 <=? d) && (d <=? 31)
      then Some (days_from_civil y m d) else None
  | _ => None
  end.

(** ** Aggregators *)

(** An integer as a binary64 number, rounded to nearest even: the conversion
    applied to an int64 column, and to a Python [int], in a float operation. *)
Definition float_of_int (z : Z) : float :=
  SF2Prim (binary_normalize prec emax z 0 false).

(** Python's [sum] of the cells of an integer column: iterating a Series
    yields Python integers, which do not wrap. *)
Definition py_sum (l : list Z) : Z := fold_left Z.add l 0.

(** The ['mean'] aggregate.  pandas stores it as a binary64 number; the model
    keeps the exact quotient. *)
Definition agg_mean (l : list Z) : Q :=
  (inject_Z (fold_right Z.add 0%Z l) / inject_Z (agg_count l))%Q.

Record IndUsers := mkIndUsers {
  iu_industry : string;
  iu_active_users : Z;
  iu_avg_daily_users : float
}.

Definition in_window (cutoff : string) (r : JoinedRecord) : bool :=
  String.leb cutoff (j_ds r).

Definition active_users_by_ind (df : DataFrame) : list IndUsers :=
  let end_jul_df := filter (in_window "2020-07-25") df in
  let ind_users :=
    map (fun g => (fst g, agg_sum (map j_active_users (snd g))))
        (groupby_industry end_jul_df) in
  let ind_users :=
    map (fun p => mkIndUsers (fst p) (snd p) (float_of_int (snd p) / 7)%float)
        ind_users in
  sort_by (fun a b => iu_active_users b <=? iu_active_users a) ind_users.

Record CntrySumm := mkCntrySumm {
  cs_country : string;
  countd_teams : Z;
  avg_team_sz : Q;
  teams_cnt_rank : Q
}.

(** [Series.rank(ascending=False)] with the default tie method ['average']:
    the values equal to [v] occupy the places after the larger ones, and each
    gets the mean of those places. *)
Definition rank_desc (col : list Z) (v : Z) : Q :=
  let larger := Z.of_nat (List.length (filter (fun x => v <? x) col)) in
  let equal := Z.of_nat (List.length (filter (fun x => x =? v) col)) in
  (2 * larger + equal + 1) # 2.

Definition avg_team_sz_top_countries (df : DataFrame) (top_n : Z)
  : list CntrySumm :=
  let cntry_df := filter (in_window "2020-07-01") df in
  let cntry_summ :=
    map (fun g => (fst g, agg_nunique (map j_team_id (snd g)),
                   agg_mean (map j_active_users (snd g))))
        (groupby_country cntry_df) in
  let col := map (fun t => snd (fst t)) cntry_summ in
  let cntry_summ :=
    map (fun t => mkCntrySumm (fst (fst t)) (snd (fst t)) (snd t)
                              (rank_desc col (snd (fst t))))
        cntry_summ in
  let cntry_summ :=
    sort_by (fun a b => Qle_bool (teams_cnt_rank a) (teams_cnt_rank b))
            cntry_summ in
  let cntry_summ :=
    filter (fun c => Qle_bool (teams_cnt_rank c) (inject_Z top_n)) cntry_summ in
  sort_by (fun a b => Qle_bool (avg_team_sz b) (avg_team_sz a)) cntry_summ.

Record DlySumm := mkDlySumm {
  dly_ds : string;
  dly_countd_teams : Z;
  total_active_users : Z;
  avg_team_users : Q;
  total_msgs_mm : float;
  msgs_per_user : float
}.

(** [lambda x: sum(x)/1e6] *)
Definition msgs_mm (x : list Z) : float :=
  (float_of_int (py_sum x) / 1e6)%float.

Definition daily_summary_figues (df : DataFrame) : list DlySumm :=
  map (fun g =>
         let users := map j_active_users (snd g) in
         let total_users := agg_sum users in
         let mm := msgs_mm (map j_messages_7d (snd g)) in
         mkDlySumm (fst g) (agg_nunique (map j_team_id (snd g)))
                   total_users (agg_mean users) mm
                   (mm * 1e6 / float_of_int total_users)%float)
      (groupby_ds df).

(** ** Main script *)

Record Results := mkResults {
  working_df : DataFrame;
  res_missing_dts : list Z;
  res_ind_users : list IndUsers;
  res_cntry_summ : list CntrySumm;
  res_dly_summ : list DlySumm
}.

Section Main.
Variable to_datetime : string -> option Z.

(** The script body up to the charts, which only draw the three summary
  tables. *)
Definition main (act : list ActivityRecord) (ind : list IndustryMap)
: option Results :=
let df := read_data act ind in
let inactive_list := check_no_active_users df in
let df := drop_teams inactive_list df in
match check_consistent_cohort df with
| None => None
| Some cohort_chk =>
    let df := drop_teams cohort_chk df in
    match check_missing_dates to_datetime df with
    | None => None
    | Some missing_dts =>
        Some (mkResults df missing_dts
                        (active_users_by_ind df)
                        (avg_team_sz_top_countries df 5)
                        (daily_summary_figues df))
    end
end.
End Main.

(** ** Vocabulary of the statements *)

(** [m] is the maximum of [active_users] over the rows of team [t]. *)
Definition team_max (df : DataFrame) (t m : Z) : Prop :=
  (exists r, In r df /\ j_team_id r = t /\ j_active_users r = m) /\
  (forall r, In r df -> j_team_id r = t -> j_active_users r <= m).

(** The number of rows of team [t]. *)
Definition team_count (df : DataFrame) (t : Z) : Z :=
  Z.of_nat (List.length (filter (fun r => j_team_id r =? t) df)).

(** [m] is the largest per-team row count of the frame. *)
Definition max_team_count (df : DataFrame) (m : Z) : Prop :=
  (exists r, In r df /\ team_count df (j_team_id r) = m) /\
  (forall t, team_count df t <= m).

Definition has_industry (r : JoinedRecord) : bool :=
  match industry r with Some _ => true | None => false end.

Definition industry_is (name : string) (r : JoinedRecord) : bool :=
  match industry r with Some n => String.eqb n name | None => false end.

(** The rows of one day, and the day's totals. *)
Definition day_rows (df : DataFrame) (d : string) : DataFrame :=
  filter (fun r => String.eqb (j_ds r) d) df.

Definition day_messages (df : DataFrame) (d : string) : Z :=
  py_sum (map j_messages_7d (day_rows df d)).

Definition day_users (df : DataFrame) (d : string) : Z :=
  agg_sum (map j_active_users (day_rows df d)).


(** The column [countd_teams] before the top-n filter: one count per country
    of the month window. *)
Definition month_team_counts (df : DataFrame) : list Z :=
  map (fun g => agg_nunique (map j_team_id (snd g)))
      (groupby_country (filter (in_window "2020-07-01") df)).

(** The characters of [p] all differ from [c]. *)
Fixpoint free_of (c : ascii) (p : string) : bool :=
  match p with
  | EmptyString => true
  | String a p' => negb (Ascii.eqb a c) && free_of c p'
  end.

(** ** Sample tables *)

Definition joined (d : string) (t : Z) (c : string) (i : Z) (n : option string)
  (users msgs : Z) : JoinedRecord :=
  mkJoined (mkActivity d t c i users msgs) n.

Definition last_week : list string :=
  ["2020-07-25"; "2020-07-26"; "2020-07-27"; "2020-07-28"; "2020-07-29";
   "2020-07-30"; "2020-07-31"]%string.

(** Team 1 has no active user on any of the seven days; team 2 has some. *)
Definition silent_team : DataFrame :=
  map (fun d => joined d 1 "US" 10 (Some "Tech"%string) 0 0) last_week.

Definition busy_team : DataFrame :=
  map (fun d => joined d 2 "FR" 20 (Some "Healthcare"%string) 4 90) last_week.

Definition two_teams : DataFrame := silent_team ++ busy_team.

(** Four days around the day the docstring of [check_missing_dates] names
    as missing, 2020-03-13. *)
Definition march_gap : DataFrame :=
  map (fun d => joined d 2 "FR" 20 (Some "Healthcare"%string) 4 90)
      ["2020-03-11"; "2020-03-12"; "2020-03-14"; "2020-03-15"]%string.

(** An industry map with one row per identifier, and activity rows of which
    the last has an identifier the map does not know. *)
Definition plain_map : list IndustryMap :=
  [mkIndustry 10 "Tech"; mkIndustry 20 "Health Care"].

Definition plain_activity : list ActivityRecord :=
  [mkActivity "2020-07-30" 1 "US" 10 3 40;
   mkActivity "2020-07-30" 2 "FR" 20 4 90;
   mkActivity "2020-07-31" 3 "DE" 99 5 70].

(** An industry map in which identifier 20 carries both spellings. *)
Definition health_map : list IndustryMap :=
  [mkIndustry 10 "Tech"; mkIndustry 20 "Health Care"; mkIndustry 20 "Healthcare"].

(** Nine countries with one team each in July 2020. *)
Definition tied_countries : DataFrame :=
  map (fun p => joined "2020-07-15" (fst p) (snd p) 10 (Some "Tech"%string) 3 10)
      [(1, "AR"); (2, "BR"); (3, "CA"); (4, "DE"); (5, "ES"); (6, "FR");
       (7, "GB"); (8, "IT"); (9, "JP")]%string.

(** A day on which nobody was active although messages are counted, and a day
    with one active user and 123 messages. *)
Definition idle_day : DataFrame :=
  [joined "2020-07-15" 1 "US" 10 (Some "Tech"%string) 0 5].

Definition one_user_day : DataFrame :=
  [joined "2020-07-16" 1 "US" 10 (Some "Tech"%string) 1 123].

(** Activity of three teams: team 1 never has an active user, team 3 is
    present on one of the two days only. *)
Definition three_teams : list ActivityRecord :=
  [mkActivity "2020-07-30" 1 "US" 10 0 0;
   mkActivity "2020-07-31" 1 "US" 10 0 0;
   mkActivity "2020-07-30" 2 "FR" 20 4 90;
   mkActivity "2020-07-31" 2 "FR" 20 6 95;
   mkActivity "2020-07-31" 3 "DE" 99 5 70].

(** [p] occurs in [s] as a substring. *)
Definition occurs_in (p s : string) : Prop :=
  exists u v, s = (u ++ p ++ v)%string.

(** Some row of the table carries the date [d]. *)
Definition observed (to_datetime : string -> option Z) (df : DataFrame) (d : Z)
  : Prop :=
  exists r, In r df /\ to_datetime (j_ds r) = Some d.

(** Two countries in July 2020, the first with two teams, the second with
    one. *)
Definition two_countries : DataFrame :=
  [joined "2020-07-10" 1 "US" 10 (Some "Tech"%string) 3 10;
   joined "2020-07-10" 2 "US" 10 (Some "Tech"%string) 5 20;
   joined "2020-07-11" 3 "FR" 20 (Some "Healthcare"%string) 4 90].

(** * Properties *)

(** ** Sorting *)

Section SortFacts.
Context {A : Type} (leb : A -> A -> bool).

Lemma insert_by_perm (x : A) (l : list A) :
Permutation (insert_by leb x l) (x :: l).
Proof.
induction l as [|y t IH]; simpl.
- apply Permutation_refl.
- destruct (leb x y).
  + apply Permutation_refl.
  + eapply perm_trans; [apply perm_skip, IH | apply perm_swap].
Qed.

Lemma sort_by_perm (l : list A) : Permutation (sort_by leb l) l.
Proof.
induction l as [|x t IH]; simpl.
- constructor.
- eapply perm_trans; [apply insert_by_perm | apply perm_skip, IH].
Qed.

Lemma sort_by_In (l : list A) (x : A) : In x (sort_by leb l) <-> In x l.
Proof.
split; apply Permutation_in;
  [apply sort_by_perm | apply Permutation_sym, sort_by_perm].
Qed.

Lemma sort_by_length (l : list A) : List.length (sort_by leb l) = List.length l.
Proof. apply Permutation_length, sort_by_perm. Qed.

Hypothesis leb_total : forall a b, leb a b = false -> leb b a = true.

Lemma insert_by_sorted (x : A) (l : list A) :
Sorted (fun a b => leb a b = true) l ->
Sorted (fun a b => leb a b = true) (insert_by leb x l).
Proof.
induction 1 as [|y t Hs IH Hhd]; simpl.
- repeat constructor.
- destruct (leb x y) eqn:E.
  + constructor; [constructor; assumption | constructor; exact E].
  + constructor; [exact IH |].
    destruct t as [|z t]; simpl.
    * constructor. apply leb_total, E.
    * destruct (leb x z); constructor.
      -- apply leb_total, E.
      -- inversion Hhd; assumption.
Qed.

Lemma sort_by_sorted (l : list A) :
Sorted (fun a b => leb a b = true) (sort_by leb l).
Proof.
induction l as [|x t IH]; simpl.
- constructor.
- apply insert_by_sorted, IH.
Qed.
End SortFacts.

(** ** groupby *)

Section GroupByFacts.
Context {R K : Type}.
Variable key_dec : forall a b : K, {a = b} + {a <> b}.
Variable key_leb : K -> K -> bool.
Variable key : R -> option K.

Lemma has_key_true (k : K) (r : R) :
has_key key_dec key k r = true <-> key r = Some k.
Proof.
unfold has_key. destruct (key r) as [k'|].
- destruct (key_dec k' k) as [->|N]; split; intro H;
    try reflexivity; try discriminate.
  inversion H. contradiction.
- split; discriminate.
Qed.

Lemma column_keys_In (df : list R) (k : K) :
In k (column_keys key df) <-> exists r, In r df /\ key r = Some k.
Proof.
unfold column_keys. rewrite in_flat_map. split.
- intros (r & Hr & Hk). exists r. split; [exact Hr |].
  destruct (key r) as [k'|]; simpl in Hk; [|contradiction].
  destruct Hk as [->|[]]. reflexivity.
- intros (r & Hr & Hk). exists r. split; [exact Hr |].
  rewrite Hk. left. reflexivity.
Qed.

Lemma group_keys_In (df : list R) (k : K) :
In k (group_keys key_dec key_leb key df) <->
exists r, In r df /\ key r = Some k.
Proof.
unfold group_keys. rewrite sort_by_In, nodup_In. apply column_keys_In.
Qed.

Lemma group_keys_NoDup (df : list R) :
NoDup (group_keys key_dec key_leb key df).
Proof.
unfold group_keys.
eapply Permutation_NoDup; [apply Permutation_sym, sort_by_perm |].
apply NoDup_nodup.
Qed.

Lemma group_rows_In (df : list R) (k : K) (r : R) :
In r (group_rows key_dec key k df) <-> In r df /\ key r = Some k.
Proof.
unfold group_rows. rewrite filter_In, has_key_true. reflexivity.
Qed.

Lemma groupby_In (df : list R) (g : K * list R) :
In g (groupby key_dec key_leb key df) <->
(exists r, In r df /\ key r = Some (fst g)) /\
snd g = group_rows key_dec key (fst g) df.
Proof.
unfold groupby. rewrite in_map_iff. split.
- intros (k & <- & Hk). simpl. split; [|reflexivity].
  apply group_keys_In in Hk. exact Hk.
- intros (Hk & Hg). exists (fst g). split.
  + rewrite <- Hg. destruct g; reflexivity.
  + apply group_keys_In. exact Hk.
Qed.

Lemma groupby_nonempty (df : list R) (g : K * list R) :
In g (groupby key_dec key_leb key df) -> snd g <> [].
Proof.
intros Hg. apply groupby_In in Hg. destruct Hg as ((r & Hr & Hk) & ->).
intro E. assert (In r (group_rows key_dec key (fst g) df)) as Hin
  by (apply group_rows_In; split; assumption).
rewrite E in Hin. exact Hin.
Qed.

Lemma groupby_keys (df : list R) :
map fst (groupby key_dec key_leb key df) = group_keys key_dec key_leb key df.
Proof.
unfold groupby. rewrite map_map. simpl. apply map_id.
Qed.

(** Rows without a key belong to no group. *)
Lemma groupby_dropna (df : list R) :
groupby key_dec key_leb key df =
groupby key_dec key_leb key
  (filter (fun r => match key r with Some _ => true | None => false end) df).
Proof.
unfold groupby, group_keys.
assert (column_keys key df =
        column_keys key (filter (fun r => match key r with
                                          | Some _ => true
                                          | None => false end) df)) as Ek.
{ induction df as [|r df IH]; simpl; [reflexivity |].
  destruct (key r) as [k|] eqn:E; simpl.
  - rewrite E. simpl. f_equal. exact IH.
  - exact IH. }
rewrite <- Ek. apply map_ext. intros k. f_equal.
unfold group_rows. clear Ek.
induction df as [|r df IH]; simpl; [reflexivity |].
unfold has_key at 1 3.
destruct (key r) as [k'|] eqn:E; simpl.
- unfold has_key at 2. rewrite E.
  destruct (key_dec k' k); [f_equal |]; exact IH.
- exact IH.
Qed.
End GroupByFacts.

(** ** Aggregates *)

Lemma fold_left_max_spec (l : list Z) (x : Z) :
  x <= fold_left Z.max l x /\
  (forall y, In y l -> y <= fold_left Z.max l x) /\
  (fold_left Z.max l x = x \/ In (fold_left Z.max l x) l).
Proof.
  revert x. induction l as [|a l IH]; intros x; simpl.
  - split; [lia | split; [intros y [] | left; reflexivity]].
  - destruct (IH (Z.max x a)) as (H1 & H2 & H3). split; [lia |]. split.
    + intros y [->|Hy]; [lia | apply H2, Hy].
    + destruct H3 as [E|Hin]; [|right; right; exact Hin].
      rewrite E. destruct (Z.max_spec x a) as [[_ ->]|[_ ->]];
        [right; left; reflexivity | left; reflexivity].
Qed.

Lemma py_max_spec (l : list Z) (m : Z) :
  py_max l = Some m -> In m l /\ forall y, In y l -> y <= m.
Proof.
  destruct l as [|x t]; simpl; [discriminate |].
  intros E. inversion E as [Em]. clear E.
  destruct (fold_left_max_spec t x) as (H1 & H2 & H3). split.
  - destruct H3 as [->|Hin]; [left; reflexivity | right; exact Hin].
  - intros y [<-|Hy]; [exact H1 | apply H2, Hy].
Qed.

Lemma py_max_None (l : list Z) : py_max l = None -> l = [].
Proof. destruct l; [reflexivity | discriminate]. Qed.

Lemma agg_max_spec (l : list Z) :
  l <> [] -> In (agg_max l) l /\ forall y, In y l -> y <= agg_max l.
Proof.
  intros Hne. unfold agg_max. destruct (py_max l) as [m|] eqn:E.
  - apply py_max_spec, E.
  - apply py_max_None in E. contradiction.
Qed.

Lemma wrap64_double_zero (m : Z) :
  0 <= m < 2 ^ 63 -> (wrap64 (m + m) = 0 <-> m = 0).
Proof.
  unfold wrap64.
  change (2 ^ 63) with 9223372036854775808.
  change (2 ^ 64) with 18446744073709551616.
  intros Hm. split; intros H.
  - Z.div_mod_to_equations. lia.
  - subst m. reflexivity.
Qed.

(** ** Team filters *)

Lemma isin_In (l : list Z) (r : JoinedRecord) :
  isin l r = true <-> In (j_team_id r) l.
Proof.
  unfold isin. rewrite existsb_exists. split.
  - intros (t & Ht & E). apply Z.eqb_eq in E. rewrite E. exact Ht.
  - intros H. exists (j_team_id r). split; [exact H | apply Z.eqb_refl].
Qed.

Lemma drop_teams_In (l : list Z) (df : DataFrame) (r : JoinedRecord) :
  In r (drop_teams l df) <-> In r df /\ ~ In (j_team_id r) l.
Proof.
  unfold drop_teams. rewrite filter_In, negb_true_iff, <- isin_In.
  destruct (isin l r); intuition congruence.
Qed.

Lemma team_rows_filter (df : DataFrame) (t : Z) :
  group_rows Z.eq_dec (fun r => Some (j_team_id r)) t df =
  filter (fun r => j_team_id r =? t) df.
Proof.
  unfold group_rows. apply filter_ext. intros r. unfold has_key.
  destruct (Z.eq_dec (j_team_id r) t) as [E|N].
  - symmetry. apply Z.eqb_eq, E.
  - symmetry. apply Z.eqb_neq, N.
Qed.

Lemma groupby_team_id_In (df : DataFrame) (g : Z * list JoinedRecord) :
  In g (groupby_team_id df) <->
  (exists r, In r df /\ j_team_id r = fst g) /\
  snd g = filter (fun r => j_team_id r =? fst g) df.
Proof.
  unfold groupby_team_id. rewrite groupby_In, team_rows_filter.
  split; intros ((r & Hr & E) & Hg); (split; [exists r; split; [exact Hr |] | exact Hg]).
  - inversion E. reflexivity.
  - rewrite E. reflexivity.
Qed.

Lemma team_max_unique (df : DataFrame) (t m m' : Z) :
  team_max df t m -> team_max df t m' -> m = m'.
Proof.
  intros ((r & Hr & Ht & Hm) & Hle) ((r' & Hr' & Ht' & Hm') & Hle').
  specialize (Hle r' Hr' Ht'). specialize (Hle' r Hr Ht). lia.
Qed.

(** The [max] column of [dau_check] holds each team's maximum. *)
Lemma dau_max_spec (df : DataFrame) (g : Z * list JoinedRecord) :
  In g (groupby_team_id df) ->
  team_max df (fst g) (agg_max (map j_active_users (snd g))).
Proof.
  intros Hg. pose proof Hg as Hne. apply groupby_nonempty in Hne.
  apply groupby_team_id_In in Hg. destruct Hg as (_ & Hrows).
  destruct (agg_max_spec (map j_active_users (snd g))) as (Hin & Hle).
  { intro E. apply map_eq_nil in E. contradiction. }
  split.
  - apply in_map_iff in Hin. destruct Hin as (r & Er & Hr).
    rewrite Hrows in Hr. apply filter_In in Hr. destruct Hr as (Hr & Ht).
    exists r. repeat split; [exact Hr | apply Z.eqb_eq, Ht | exact Er].
  - intros r Hr Ht. apply Hle. apply in_map. rewrite Hrows.
    apply filter_In. split; [exact Hr | apply Z.eqb_eq, Ht].
Qed.

Lemma check_no_active_users_In (df : DataFrame) (t : Z) :
  In t (check_no_active_users df) <->
  exists g, In g (groupby_team_id df) /\ fst g = t /\
            wrap64 (agg_max (map j_active_users (snd g)) +
                    agg_max (map j_active_users (snd g))) = 0.
Proof.
  unfold check_no_active_users, dau_check.
  rewrite in_map_iff. split.
  - intros (d & Et & Hd). apply filter_In in Hd. destruct Hd as (Hd & Hf).
    apply in_map_iff in Hd. destruct Hd as (g & <- & Hg).
    simpl in *. exists g. repeat split; [exact Hg | exact Et | apply Z.eqb_eq, Hf].
  - intros (g & Hg & Et & Hf).
    eexists. split; [| apply filter_In; split; [apply in_map, Hg |]].
    + simpl. exact Et.
    + simpl. apply Z.eqb_eq, Hf.
Qed.

Lemma cohort_counts_In (df : DataFrame) (t c : Z) :
  In (t, c) (cohort_counts df) <->
  (exists r, In r df /\ j_team_id r = t) /\ c = team_count df t.
Proof.
  unfold cohort_counts. rewrite in_map_iff. split.
  - intros (g & E & Hg). inversion E as [[Et Ec]]. clear E.
    apply groupby_team_id_In in Hg. destruct Hg as (Hr & Hrows).
    split; [exact Hr |].
    unfold agg_count, team_count. rewrite length_map, Hrows. reflexivity.
  - intros (Hr & ->). exists (t, filter (fun r => j_team_id r =? t) df).
    split.
    + simpl. unfold agg_count, team_count. rewrite length_map. reflexivity.
    + apply groupby_team_id_In. simpl. split; [exact Hr | reflexivity].
Qed.

Lemma team_count_absent (df : DataFrame) (t : Z) :
  (forall r, In r df -> j_team_id r <> t) -> team_count df t = 0.
Proof.
  intros H. unfold team_count.
  replace (filter (fun r => j_team_id r =? t) df) with (@nil JoinedRecord);
    [reflexivity |].
  symmetry. induction df as [|r df IH]; simpl; [reflexivity |].
  destruct (j_team_id r =? t) eqn:E.
  - apply Z.eqb_eq in E. exfalso. apply (H r); [left; reflexivity | exact E].
  - apply IH. intros r' Hr'. apply H. right. exact Hr'.
Qed.

Lemma team_count_nonneg (df : DataFrame) (t : Z) : 0 <= team_count df t.
Proof. unfold team_count. lia. Qed.

(** Proves [forall r, In r l -> P r] for a table [l] given row by row. *)
Ltac each_row tac :=
  match goal with
  | |- forall r, In r ?l -> @?P r =>
      let l' := eval cbv in l in apply (proj1 (Forall_forall P l'))
  end;
  repeat (apply Forall_cons; [tac |]);
  apply Forall_nil.

(** C2. When every [active_users] is a non-negative int64 value,
    [check_no_active_users] returns exactly the teams whose maximum of
    [active_users] over their rows is 0.  In particular a team whose rows all
    have 0 active users is returned, and once the caller has dropped the
    returned teams no row of that team is left, whatever is dropped next. *)
Theorem check_no_active_users_spec (df : DataFrame) :
  (forall r, In r df -> 0 <= j_active_users r < 2 ^ 63) ->
  (forall t, In t (check_no_active_users df) <-> team_max df t 0) /\
  (forall t,
      (exists r, In r df /\ j_team_id r = t) ->
      (forall r, In r df -> j_team_id r = t -> j_active_users r = 0) ->
      In t (check_no_active_users df) /\
      (forall r, In r (drop_teams (check_no_active_users df) df) ->
                 j_team_id r <> t) /\
      (forall l r,
          In r (drop_teams l (drop_teams (check_no_active_users df) df)) ->
          j_team_id r <> t)).
Proof.
  intros Hnn.
  assert (forall t, In t (check_no_active_users df) <-> team_max df t 0) as Hiff.
  { intros t. rewrite check_no_active_users_In. split.
    - intros (g & Hg & <- & Hf). pose proof (dau_max_spec df g Hg) as Hmax.
      destruct Hmax as ((r & Hr & Ht & Hm) & Hle).
      assert (0 <= agg_max (map j_active_users (snd g)) < 2 ^ 63) as Hrange
        by (rewrite <- Hm; apply Hnn, Hr).
      apply (proj1 (wrap64_double_zero _ Hrange)) in Hf.
      split.
      + exists r. repeat split; [exact Hr | exact Ht | congruence].
      + intros r' Hr' Ht'. rewrite <- Hf. apply Hle; assumption.
    - intros Hmax. pose proof Hmax as ((r & Hr & Ht & _) & _).
      exists (t, filter (fun r => j_team_id r =? t) df).
      assert (In (t, filter (fun r => j_team_id r =? t) df) (groupby_team_id df))
        as Hg.
      { apply groupby_team_id_In. simpl. split; [exists r; auto | reflexivity]. }
      split; [exact Hg | split; [reflexivity |]].
      pose proof (dau_max_spec df _ Hg) as Hmax'. simpl in Hmax'. simpl.
      rewrite (team_max_unique df t _ 0 Hmax' Hmax). reflexivity. }
  split; [exact Hiff |].
  intros t (r & Hr & Ht) Hzero.
  assert (In t (check_no_active_users df)) as Hin.
  { apply Hiff. split.
    - exists r. repeat split; [exact Hr | exact Ht | apply Hzero; assumption].
    - intros r' Hr' Ht'. rewrite (Hzero r' Hr' Ht'). lia. }
  split; [exact Hin |].
  assert (forall r', In r' (drop_teams (check_no_active_users df) df) ->
                     j_team_id r' <> t) as Hgone.
  { intros r' Hr' E. apply drop_teams_In in Hr'. destruct Hr' as (_ & Hn).
    apply Hn. rewrite E. exact Hin. }
  split; [exact Hgone |].
  intros l r' Hr'. apply drop_teams_In in Hr'. apply Hgone, Hr'.
Qed.

Lemma check_no_active_users_witness :
  In 1 (check_no_active_users two_teams) /\
  (forall r, In r (drop_teams (check_no_active_users two_teams) two_teams) ->
             j_team_id r <> 1) /\
  (forall l r,
      In r (drop_teams l (drop_teams (check_no_active_users two_teams)
                                     two_teams)) ->
      j_team_id r <> 1).
Proof.
  refine (proj2 (check_no_active_users_spec two_teams _) 1 _ _).
  - each_row ltac:(vm_compute; split; [discriminate | reflexivity]).
  - exists (joined "2020-07-25" 1 "US" 10 (Some "Tech"%string) 0 0).
    split; [left; reflexivity | reflexivity].
  - each_row ltac:(vm_compute; intros E; first [reflexivity | discriminate E]).
Defined.

(** C4. [check_consistent_cohort] raises only on an empty table.  Otherwise
    every team it returns has strictly fewer rows than the largest per-team
    row count, and no team with that many rows is returned. *)
Theorem check_consistent_cohort_spec (df : DataFrame) :
  match check_consistent_cohort df with
  | None => df = []
  | Some teams =>
      exists m, max_team_count df m /\
                (forall t, In t teams -> team_count df t < m) /\
                (forall t, team_count df t = m -> ~ In t teams)
  end.
Proof.
  unfold check_consistent_cohort.
  destruct (py_max (map snd (cohort_counts df))) as [m|] eqn:E.
  - apply py_max_spec in E. destruct E as (Hin & Hle).
    apply in_map_iff in Hin. destruct Hin as ((t0 & c0) & Ec & Hin).
    simpl in Ec. subst c0. apply cohort_counts_In in Hin.
    destruct Hin as ((r0 & Hr0 & Ht0) & Em).
    assert (forall t c, In (t, c) (cohort_counts df) -> c <= m) as Hle'.
    { intros t c H. apply Hle. apply in_map_iff. exists (t, c). auto. }
    assert (forall t, In t (map fst (filter (fun c => negb (snd c =? m))
                                            (cohort_counts df))) <->
                      exists c, In (t, c) (cohort_counts df) /\ c <> m) as Hret.
    { intros t. rewrite in_map_iff. split.
      - intros ((t' & c) & Et & H). simpl in Et. subst t'.
        apply filter_In in H. destruct H as (H & Hc). simpl in Hc.
        exists c. split; [exact H |].
        apply negb_true_iff, Z.eqb_neq in Hc. exact Hc.
      - intros (c & H & Hc). exists (t, c). split; [reflexivity |].
        apply filter_In. split; [exact H |]. simpl.
        apply negb_true_iff, Z.eqb_neq. exact Hc. }
    exists m. split; [split |].
    + exists r0. split; [exact Hr0 |]. rewrite Ht0. symmetry. exact Em.
    + intros t. destruct (In_dec Z.eq_dec t (map j_team_id df)) as [Hi|Hn].
      * apply in_map_iff in Hi. destruct Hi as (r & Et & Hr).
        apply (Hle' t). apply cohort_counts_In. split; [exists r; auto | reflexivity].
      * rewrite team_count_absent.
        -- rewrite Em. apply team_count_nonneg.
        -- intros r Hr Et. apply Hn. apply in_map_iff. exists r. auto.
    + split.
      * intros t Ht. apply Hret in Ht. destruct Ht as (c & H & Hc).
        pose proof (Hle' t c H) as Hcm.
        apply cohort_counts_In in H. destruct H as (_ & ->). lia.
      * intros t Et Ht. apply Hret in Ht. destruct Ht as (c & H & Hc).
        apply cohort_counts_In in H. destruct H as (_ & ->). contradiction.
  - apply py_max_None, map_eq_nil in E.
    destruct df as [|r df]; [reflexivity |].
    assert (In (j_team_id r, team_count (r :: df) (j_team_id r))
               (cohort_counts (r :: df))) as H.
    { apply cohort_counts_In. split; [|reflexivity].
      exists r. split; [left; reflexivity | reflexivity]. }
    rewrite E in H. destruct H.
Qed.

(** ** Missing dates *)

Lemma fold_left_min_spec (l : list Z) (x : Z) :
  fold_left Z.min l x <= x /\
  (forall y, In y l -> fold_left Z.min l x <= y) /\
  (fold_left Z.min l x = x \/ In (fold_left Z.min l x) l).
Proof.
  revert x. induction l as [|a l IH]; intros x; simpl.
  - split; [lia | split; [intros y [] | left; reflexivity]].
  - destruct (IH (Z.min x a)) as (H1 & H2 & H3). split; [lia |]. split.
    + intros y [->|Hy]; [lia | apply H2, Hy].
    + destruct H3 as [E|Hin]; [|right; right; exact Hin].
      rewrite E. destruct (Z.min_spec x a) as [[_ ->]|[_ ->]];
        [left; reflexivity | right; left; reflexivity].
Qed.

Lemma py_min_spec (l : list Z) (m : Z) :
  py_min l = Some m -> In m l /\ forall y, In y l -> m <= y.
Proof.
  destruct l as [|x t]; simpl; [discriminate |].
  intros E. inversion E as [Em]. clear E.
  destruct (fold_left_min_spec t x) as (H1 & H2 & H3). split.
  - destruct H3 as [->|Hin]; [left; reflexivity | right; exact Hin].
  - intros y [<-|Hy]; [exact H1 | apply H2, Hy].
Qed.

Lemma date_range_empty (lo hi : Z) : hi < lo -> date_range lo hi = [].
Proof.
  intros H. unfold date_range.
  replace (Z.to_nat (hi - lo + 1)) with 0%nat by lia. reflexivity.
Qed.

Lemma date_range_cons (lo hi : Z) :
  lo <= hi -> date_range lo hi = lo :: date_range (lo + 1) hi.
Proof.
  intros H. unfold date_range.
  replace (Z.to_nat (hi - lo + 1)) with (S (Z.to_nat (hi - (lo + 1) + 1))) by lia.
  simpl. f_equal; [lia |].
  rewrite <- seq_shift, map_map. apply map_ext. intros i. lia.
Qed.

Lemma date_range_In (lo hi d : Z) : In d (date_range lo hi) <-> lo <= d <= hi.
Proof.
  unfold date_range. rewrite in_map_iff. split.
  - intros (i & <- & Hi). apply in_seq in Hi. lia.
  - intros H. exists (Z.to_nat (d - lo)). split; [lia |].
    apply in_seq. lia.
Qed.

(** A test that holds for one day only keeps that day of the calendar. *)
Lemma filter_date_range_single (f : Z -> bool) (hi m : Z) (n : nat) :
  forall lo,
    Z.to_nat (hi - lo + 1) = n ->
    (forall d, lo <= d <= hi -> (f d = true <-> d = m)) ->
    filter f (date_range lo hi) =
    if (lo <=? m) && (m <=? hi) then [m] else [].
Proof.
  induction n as [|n IH]; intros lo Hn Hf.
  - rewrite date_range_empty by lia.
    destruct (lo <=? m) eqn:E1; destruct (m <=? hi) eqn:E2; simpl; try reflexivity.
    apply Z.leb_le in E1, E2. lia.
  - rewrite date_range_cons by lia. simpl.
    rewrite (IH (lo + 1)); [| lia | intros d Hd; apply Hf; lia].
    destruct (f lo) eqn:Efl.
    + apply Hf in Efl; [|lia]. subst m.
      replace (lo + 1 <=? lo) with false by (symmetry; apply Z.leb_gt; lia).
      replace (lo <=? lo) with true by (symmetry; apply Z.leb_le; lia).
      replace (lo <=? hi) with true by (symmetry; apply Z.leb_le; lia).
      reflexivity.
    + assert (lo <> m) as Hne.
      { intro E. assert (f lo = true) as Ht by (apply Hf; [lia | exact E]).
        congruence. }
      destruct (m <=? hi); [|rewrite !andb_false_r; reflexivity].
      rewrite !andb_true_r.
      destruct (lo <=? m) eqn:E1; destruct (lo + 1 <=? m) eqn:E2; try reflexivity;
        [apply Z.leb_le in E1; apply Z.leb_gt in E2 |
         apply Z.leb_gt in E1; apply Z.leb_le in E2]; lia.
Qed.

Section DatesFacts.
Variable to_datetime : string -> option Z.

Lemma to_datetime_all_In (col : list string) (dates : list Z) :
to_datetime_all to_datetime col = Some dates ->
forall d, In d dates <-> exists s, In s col /\ to_datetime s = Some d.
Proof.
revert dates. induction col as [|s col IH]; intros dates; simpl.
- intros E. inversion E. intros d. split; [intros [] | intros (s & [] & _)].
- destruct (to_datetime s) as [d0|] eqn:Es; [|discriminate].
  destruct (to_datetime_all to_datetime col) as [ds0|]; [|discriminate].
  intros E. inversion E. subst dates. clear E. intros d. simpl.
  rewrite (IH ds0 eq_refl d). split.
  + intros [<-|(s' & Hs' & E')]; [exists s; auto | exists s'; auto].
  + intros (s' & [<-|Hs'] & E'); [left; congruence | right; exists s'; auto].
Qed.

Lemma to_datetime_all_total (col : list string) :
(forall s, In s col -> exists d, to_datetime s = Some d) ->
exists dates, to_datetime_all to_datetime col = Some dates.
Proof.
induction col as [|s col IH]; intros H; simpl.
- exists []. reflexivity.
- destruct (H s (or_introl eq_refl)) as (d & ->).
  destruct IH as (ds0 & ->); [intros s' Hs'; apply H; right; exact Hs' |].
  exists (d :: ds0). reflexivity.
Qed.

(** C5. When every date of the table parses and the dates present are the
  days from [lo] to [hi] except the single interior day [m],
  [check_missing_dates] returns exactly the list holding [m]. *)
Theorem check_missing_dates_one_gap (df : DataFrame) (lo hi m : Z) :
(forall r, In r df -> exists d, to_datetime (j_ds r) = Some d) ->
lo < m < hi ->
(forall d, (exists r, In r df /\ to_datetime (j_ds r) = Some d) <->
           lo <= d <= hi /\ d <> m) ->
check_missing_dates to_datetime df = Some [m].
Proof.
intros Hparse Hm Hobs. unfold check_missing_dates.
destruct (to_datetime_all_total (map j_ds df)) as (dates & Ed).
{ intros s Hs. apply in_map_iff in Hs. destruct Hs as (r & <- & Hr).
  apply Hparse, Hr. }
rewrite Ed.
assert (forall d, In d dates <-> lo <= d <= hi /\ d <> m) as Hdates.
{ intros d. rewrite (to_datetime_all_In _ _ Ed d), <- Hobs. split.
  - intros (s & Hs & E). apply in_map_iff in Hs.
    destruct Hs as (r & <- & Hr). exists r. auto.
  - intros (r & Hr & E). exists (j_ds r). split; [apply in_map, Hr | exact E]. }
assert (In lo dates) as Hlo by (apply Hdates; lia).
assert (In hi dates) as Hhi by (apply Hdates; lia).
destruct (py_min dates) as [lo'|] eqn:Emin;
  [|destruct dates; [destruct Hlo | discriminate]].
destruct (py_max dates) as [hi'|] eqn:Emax;
  [|destruct dates; [destruct Hlo | discriminate]].
apply py_min_spec in Emin. destruct Emin as (Hin1 & Hle1).
apply py_max_spec in Emax. destruct Emax as (Hin2 & Hle2).
apply Hdates in Hin1, Hin2. specialize (Hle1 lo Hlo). specialize (Hle2 hi Hhi).
assert (lo' = lo) as -> by lia. assert (hi' = hi) as -> by lia.
f_equal.
rewrite (filter_date_range_single _ hi m _ lo eq_refl).
- replace (lo <=? m) with true by (symmetry; apply Z.leb_le; lia).
  replace (m <=? hi) with true by (symmetry; apply Z.leb_le; lia).
  reflexivity.
- intros d Hd. rewrite negb_true_iff. split.
  + intros Hex. destruct (Z.eq_dec d m) as [E|N]; [exact E |].
    assert (existsb (Z.eqb d) dates = true) as Ht.
    { apply existsb_exists. exists d. split; [|apply Z.eqb_refl].
      apply Hdates. split; assumption. }
    congruence.
  + intros ->. destruct (existsb (Z.eqb m) dates) eqn:Ex; [|reflexivity].
    apply existsb_exists in Ex. destruct Ex as (d & Hd' & E).
    apply Z.eqb_eq in E. subst d. apply Hdates in Hd'. lia.
Qed.
End DatesFacts.

(** ** Loader *)

Lemma matches_conform (ind : list IndustryMap) (a : ActivityRecord) :
  matches (conform ind) a = conform (matches ind a).
Proof.
  unfold matches, conform. induction ind as [|i ind IH]; simpl; [reflexivity |].
  destruct (map_industry_id i =? industry_id a); simpl; rewrite IH; reflexivity.
Qed.

Lemma merge_left_In (act : list ActivityRecord) (ind : list IndustryMap)
  (j : JoinedRecord) :
  In j (merge_left act ind) <->
  In (activity j) act /\
  (matches ind (activity j) = [] /\ industry j = None \/
   exists i, In i (matches ind (activity j)) /\
             industry j = Some (map_industry i)).
Proof.
  unfold merge_left. rewrite in_flat_map. split.
  - intros (a & Ha & Hj). destruct (matches ind a) as [|i0 ms] eqn:E.
    + destruct Hj as [<-|[]]. simpl. split; [exact Ha |]. left. auto.
    + apply in_map_iff in Hj. destruct Hj as (i & <- & Hi). simpl.
      split; [exact Ha |]. right. exists i. rewrite E. auto.
  - destruct j as [a n]. simpl. intros (Ha & H). exists a. split; [exact Ha |].
    destruct H as [(E & ->)|(i & Hi & ->)].
    + rewrite E. left. reflexivity.
    + destruct (matches ind a) as [|i0 ms] eqn:E; [destruct Hi |].
      exact (in_map (fun i => mkJoined a (Some (map_industry i))) _ i Hi).
Qed.

(** C6. When every activity row has at most one industry-map row with its
    [industry_id], the table [read_data] builds has exactly the activity rows,
    in order and with all their columns; a row without a match has a missing
    industry name and is present, and a row with a match carries the conformed
    name of that match. *)
Theorem read_data_left_join (act : list ActivityRecord) (ind : list IndustryMap) :
  (forall a, In a act -> (List.length (matches ind a) <= 1)%nat) ->
  map activity (read_data act ind) = act /\
  (forall j, In j (read_data act ind) ->
             matches ind (activity j) = [] -> industry j = None) /\
  (forall a, In a act -> matches ind a = [] ->
             In (mkJoined a None) (read_data act ind)) /\
  (forall j i, In j (read_data act ind) ->
               matches ind (activity j) = [i] ->
               industry j = Some (conform_industry (map_industry i))).
Proof.
  intros Hone. unfold read_data. split; [|split; [|split]].
  - unfold merge_left. induction act as [|a act IH]; [reflexivity |].
    cbn [flat_map]. rewrite map_app, IH by (intros a' Ha'; apply Hone; right; exact Ha').
    specialize (Hone a (or_introl eq_refl)).
    rewrite matches_conform.
    destruct (matches ind a) as [|i [|i' ms]]; simpl in *;
      [reflexivity | reflexivity | lia].
  - intros j Hj E. apply merge_left_In in Hj.
    destruct Hj as (_ & [(_ & Hn)|(i & Hi & _)]); [exact Hn |].
    rewrite matches_conform, E in Hi. destruct Hi.
  - intros a Ha E. apply merge_left_In. simpl. split; [exact Ha |].
    left. rewrite matches_conform, E. auto.
  - intros j i Hj E. apply merge_left_In in Hj.
    rewrite matches_conform, E in Hj. simpl in Hj.
    destruct Hj as (_ & [(Hnil & _)|(i' & [<-|[]] & Hn)]); [discriminate |].
    exact Hn.
Qed.

(** *** The normalisation of the industry names *)

Lemma prefix_split (p s : string) :
  String.prefix p s = true -> exists t, s = (p ++ t)%string.
Proof.
  revert s. induction p as [|a p IH]; intros s H.
  - exists s. reflexivity.
  - destruct s as [|b s]; simpl in H; [discriminate |].
    destruct (ascii_dec a b) as [<-|N]; [|discriminate].
    destruct (IH s H) as (t & ->). exists t. reflexivity.
Qed.

(** A text without the letter H that starts the conformed text also starts the
    original: the characters before the first H are copied through. *)
Lemma prefix_conform_inv (p : string) :
  free_of "H" p = true ->
  forall s, String.prefix p (conform_industry s) = true ->
            String.prefix p s = true.
Proof.
  unfold conform_industry, str_replace.
  induction p as [|a p IH]; intros Hfree s H; [destruct s; reflexivity |].
  simpl in Hfree. apply andb_true_iff in Hfree. destruct Hfree as (Ha & Hp).
  apply negb_true_iff, Ascii.eqb_neq in Ha.
  destruct s as [|c s]; [simpl in H; discriminate |].
  cbn [replace_from] in H.
  destruct (String.prefix "Health Care" (String c s)) eqn:Em.
  - simpl in H. destruct (ascii_dec a "H"); [contradiction | discriminate].
  - simpl in H. simpl. destruct (ascii_dec a c); [|discriminate].
    apply IH; assumption.
Qed.

Lemma conform_industry_match (t : string) :
  conform_industry ("Health Care" ++ t) =
  ("Healthcare" ++ conform_industry t)%string.
Proof. destruct t; reflexivity. Qed.

Lemma conform_industry_canonical (t : string) :
  conform_industry ("Healthcare" ++ t) =
  ("Healthcare" ++ conform_industry t)%string.
Proof. reflexivity. Qed.

Lemma conform_industry_step (c : ascii) (s : string) :
  String.prefix "Health Care" (String c s) = false ->
  conform_industry (String c s) = String c (conform_industry s).
Proof.
  intros H. unfold conform_industry, str_replace. cbn [replace_from].
  rewrite H. reflexivity.
Qed.

Lemma string_length_app (s t : string) :
  String.length (s ++ t) = (String.length s + String.length t)%nat.
Proof. induction s as [|c s IH]; simpl; [reflexivity | rewrite IH; reflexivity]. Qed.

Lemma conform_industry_idem_len (n : nat) :
  forall s, (String.length s < n)%nat ->
            conform_industry (conform_industry s) = conform_industry s.
Proof.
  induction n as [|n IH]; intros s Hlen; [lia |].
  destruct s as [|c s]; [reflexivity |].
  destruct (String.prefix "Health Care" (String c s)) eqn:Em.
  - apply prefix_split in Em. destruct Em as (t & Et). rewrite Et in *.
    rewrite conform_industry_match, conform_industry_canonical, IH;
      [reflexivity |].
    rewrite string_length_app in Hlen. simpl in Hlen. lia.
  - rewrite (conform_industry_step c s Em).
    rewrite conform_industry_step.
    + rewrite IH; [reflexivity | simpl in Hlen; lia].
    + destruct (String.prefix "Health Care" (String c (conform_industry s)))
        eqn:Em'; [|reflexivity].
      change (String.prefix "Health Care" (String c (conform_industry s)))
        with (if ascii_dec "H" c
              then String.prefix "ealth Care" (conform_industry s)
              else false) in Em'.
      change (String.prefix "Health Care" (String c s))
        with (if ascii_dec "H" c then String.prefix "ealth Care" s else false)
        in Em.
      destruct (ascii_dec "H" c) as [E|N]; [|discriminate].
      apply (prefix_conform_inv "ealth Care" eq_refl) in Em'. congruence.
Qed.

Lemma conform_industry_idempotent (s : string) :
  conform_industry (conform_industry s) = conform_industry s.
Proof. apply (conform_industry_idem_len (S (String.length s))). lia. Qed.

Lemma matches_In (ind : list IndustryMap) (a : ActivityRecord) (i : IndustryMap) :
  In i (matches ind a) <-> In i ind /\ map_industry_id i = industry_id a.
Proof. unfold matches. rewrite filter_In, Z.eqb_eq. reflexivity. Qed.

Lemma read_data_witness :
  map activity (read_data plain_activity plain_map) = plain_activity /\
  (forall j, In j (read_data plain_activity plain_map) ->
             matches plain_map (activity j) = [] -> industry j = None) /\
  (forall a, In a plain_activity -> matches plain_map a = [] ->
             In (mkJoined a None) (read_data plain_activity plain_map)) /\
  (forall j i, In j (read_data plain_activity plain_map) ->
               matches plain_map (activity j) = [i] ->
               industry j = Some (conform_industry (map_industry i))).
Proof.
  apply (read_data_left_join plain_activity plain_map).
  each_row ltac:(vm_compute; lia).
Defined.

(** C7. When an industry identifier carries both spellings in the industry
    map, and no other name, every row of the joined table with that identifier
    is labelled "Healthcare"; and conforming a name that is already conformed
    changes nothing. *)
Theorem read_data_healthcare (act : list ActivityRecord)
  (ind : list IndustryMap) (id : Z) :
  In (mkIndustry id "Health Care") ind ->
  In (mkIndustry id "Healthcare") ind ->
  (forall i, In i ind -> map_industry_id i = id ->
             map_industry i = "Health Care"%string \/
             map_industry i = "Healthcare"%string) ->
  (forall j, In j (read_data act ind) -> j_industry_id j = id ->
             industry j = Some "Healthcare"%string) /\
  (forall s, conform_industry (conform_industry s) = conform_industry s).
Proof.
  intros Hold Hnew Honly. split; [|apply conform_industry_idempotent].
  intros j Hj Hid. unfold read_data in Hj. apply merge_left_In in Hj.
  destruct Hj as (_ & [(Hnil & _)|(i & Hi & ->)]).
  - exfalso.
    assert (In (mkIndustry id "Healthcare") (matches (conform ind) (activity j)))
      as Hin.
    { apply matches_In. split; [|symmetry; exact Hid].
      unfold conform. apply in_map_iff.
      exists (mkIndustry id "Healthcare"). split; [reflexivity | exact Hnew]. }
    rewrite Hnil in Hin. destruct Hin.
  - apply matches_In in Hi. destruct Hi as (Hi & Ei).
    unfold conform in Hi. apply in_map_iff in Hi.
    destruct Hi as (i0 & <- & Hi0). simpl in *.
    destruct (Honly i0 Hi0) as [E|E];
      [unfold j_industry_id in Hid; lia | |]; rewrite E; reflexivity.
Qed.

Lemma read_data_healthcare_witness :
  (forall j, In j (read_data plain_activity health_map) ->
             j_industry_id j = 20 -> industry j = Some "Healthcare"%string) /\
  (forall s, conform_industry (conform_industry s) = conform_industry s).
Proof.
  apply (read_data_healthcare plain_activity health_map 20).
  - right. left. reflexivity.
  - right. right. left. reflexivity.
  - each_row ltac:(vm_compute; intros E;
                   first [discriminate E | left; reflexivity | right; reflexivity]).
Defined.

Lemma check_missing_dates_witness :
  check_missing_dates iso_date march_gap = Some [18334].
Proof.
  apply (check_missing_dates_one_gap iso_date march_gap 18332 18336 18334).
  - each_row ltac:(vm_compute; eexists; reflexivity).
  - lia.
  - intros d. split.
    + intros (r & Hr & E). revert r Hr E.
      each_row ltac:(intros E; vm_compute in E; injection E as <-; lia).
    + intros (Hd & Hne).
      assert (d = 18332 \/ d = 18333 \/ d = 18335 \/ d = 18336)
        as [-> | [-> | [-> | ->]]] by lia.
      * exists (joined "2020-03-11" 2 "FR" 20 (Some "Healthcare"%string) 4 90).
        split; [vm_compute; tauto | reflexivity].
      * exists (joined "2020-03-12" 2 "FR" 20 (Some "Healthcare"%string) 4 90).
        split; [vm_compute; tauto | reflexivity].
      * exists (joined "2020-03-14" 2 "FR" 20 (Some "Healthcare"%string) 4 90).
        split; [vm_compute; tauto | reflexivity].
      * exists (joined "2020-03-15" 2 "FR" 20 (Some "Healthcare"%string) 4 90).
        split; [vm_compute; tauto | reflexivity].
Defined.

(** ** Aggregators *)

Lemma Sorted_weaken {A : Type} (R R' : A -> A -> Prop) (l : list A) :
  (forall a b, R a b -> R' a b) -> Sorted R l -> Sorted R' l.
Proof.
  intros Himp. induction 1 as [|x l Hs IH Hhd]; constructor.
  - exact IH.
  - destruct Hhd; constructor. apply Himp. assumption.
Qed.

(** Sorting by a total test gives a list in which every row comes no later
    than all the rows after it, for any transitive reading of the test. *)
Lemma sort_by_StronglySorted {A : Type} (leb : A -> A -> bool)
  (R : A -> A -> Prop) (l : list A) :
  (forall a b, leb a b = false -> leb b a = true) ->
  (forall a b, leb a b = true -> R a b) ->
  (forall a b c, R a b -> R b c -> R a c) ->
  StronglySorted R (sort_by leb l).
Proof.
  intros Htotal Himp Htrans. apply Sorted_StronglySorted.
  - exact Htrans.
  - apply (Sorted_weaken (fun a b => leb a b = true)); [exact Himp |].
    apply sort_by_sorted, Htotal.
Qed.

Lemma filter_filter_andb {A : Type} (f g : A -> bool) (l : list A) :
  filter f (filter g l) = filter (fun x => g x && f x) l.
Proof.
  induction l as [|x l IH]; simpl; [reflexivity |].
  destruct (g x); simpl; [destruct (f x) |]; rewrite IH; reflexivity.
Qed.

Lemma industry_rows_filter (df : DataFrame) (name : string) :
  group_rows string_dec industry name df = filter (industry_is name) df.
Proof.
  unfold group_rows. apply filter_ext. intros r.
  unfold has_key, industry_is. destruct (industry r) as [n|]; [|reflexivity].
  destruct (string_dec n name) as [E|N].
  - symmetry. apply String.eqb_eq, E.
  - symmetry. apply String.eqb_neq, N.
Qed.

Lemma string_rows_filter (key : JoinedRecord -> string) (df : DataFrame)
  (k : string) :
  group_rows string_dec (fun r => Some (key r)) k df =
  filter (fun r => String.eqb (key r) k) df.
Proof.
  unfold group_rows. apply filter_ext. intros r. unfold has_key.
  destruct (string_dec (key r) k) as [E|N].
  - symmetry. apply String.eqb_eq, E.
  - symmetry. apply String.eqb_neq, N.
Qed.

(** The rows of [active_users_by_ind], before sorting. *)
Lemma active_users_by_ind_In (df : DataFrame) (o : IndUsers) :
  In o (active_users_by_ind df) <->
  exists g, In g (groupby_industry (filter (in_window "2020-07-25") df)) /\
            o = mkIndUsers (fst g) (agg_sum (map j_active_users (snd g)))
                  (float_of_int (agg_sum (map j_active_users (snd g))) / 7)%float.
Proof.
  unfold active_users_by_ind. rewrite sort_by_In, map_map, in_map_iff.
  split; intros (g & H1 & H2); exists g; simpl in *; auto.
Qed.

(** C3. Every row of [active_users_by_ind] has its [avg_daily_users] equal to
    its [active_users] divided by 7, and the rows are in descending order of
    [active_users]. *)
Theorem active_users_by_ind_spec (df : DataFrame) :
  (forall o, In o (active_users_by_ind df) ->
             iu_avg_daily_users o = (float_of_int (iu_active_users o) / 7)%float) /\
  StronglySorted (fun a b => iu_active_users b <= iu_active_users a)
                 (active_users_by_ind df).
Proof.
  split.
  - intros o Ho. apply active_users_by_ind_In in Ho.
    destruct Ho as (g & _ & ->). reflexivity.
  - unfold active_users_by_ind. apply sort_by_StronglySorted.
    + intros a b H. apply Z.leb_gt in H. apply Z.leb_le. lia.
    + intros a b H. apply Z.leb_le in H. exact H.
    + intros a b c H1 H2. lia.
Qed.

(** C10. Rows whose industry name is missing take no part in
    [active_users_by_ind]: the result is that of the table without them, and
    every output row stands for an industry name some row of the window
    carries, its [active_users] being the sum over the rows of the window that
    carry that name. *)
Theorem active_users_by_ind_dropna (df : DataFrame) :
  active_users_by_ind df = active_users_by_ind (filter has_industry df) /\
  (forall o, In o (active_users_by_ind df) ->
     (exists r, In r df /\ in_window "2020-07-25" r = true /\
                industry r = Some (iu_industry o)) /\
     iu_active_users o =
     agg_sum (map j_active_users
                  (filter (fun r => in_window "2020-07-25" r &&
                                    industry_is (iu_industry o) r) df))).
Proof.
  split.
  - unfold active_users_by_ind.
    assert (filter (in_window "2020-07-25") (filter has_industry df) =
            filter has_industry (filter (in_window "2020-07-25") df)) as ->.
    { rewrite !filter_filter_andb. apply filter_ext. intros r. apply andb_comm. }
    unfold groupby_industry.
    rewrite (groupby_dropna string_dec String.leb industry
               (filter (in_window "2020-07-25") df)).
    reflexivity.
  - intros o Ho. apply active_users_by_ind_In in Ho.
    destruct Ho as (g & Hg & ->). simpl.
    unfold groupby_industry in Hg. apply groupby_In in Hg.
    destruct Hg as ((r & Hr & Hk) & Hrows).
    apply filter_In in Hr. destruct Hr as (Hr & Hw). split.
    + exists r. auto.
    + rewrite Hrows, industry_rows_filter, filter_filter_andb. reflexivity.
Qed.


(** The rows of [avg_team_sz_top_countries]: the countries of the window
    whose rank is at most [top_n]. *)
Lemma avg_team_sz_top_countries_In (df : DataFrame) (top_n : Z) (o : CntrySumm) :
  In o (avg_team_sz_top_countries df top_n) <->
  (exists g,
      In g (groupby_country (filter (in_window "2020-07-01") df)) /\
      o = mkCntrySumm (fst g) (agg_nunique (map j_team_id (snd g)))
            (agg_mean (map j_active_users (snd g)))
            (rank_desc (month_team_counts df)
                       (agg_nunique (map j_team_id (snd g))))) /\
  Qle_bool (teams_cnt_rank o) (inject_Z top_n) = true.
Proof.
  unfold avg_team_sz_top_countries, month_team_counts.
  rewrite sort_by_In, filter_In, sort_by_In, !map_map, in_map_iff. simpl.
  split.
  - intros ((g & <- & Hg) & Hrank). split; [exists g; split; auto | exact Hrank].
  - intros ((g & Hg & ->) & Hrank). split; [exists g; split; auto | exact Hrank].
Qed.



(** C1, on the table of nine countries with one team each: all nine share the
    rank 5 and all nine are returned for [top_n = 5]. *)
Theorem avg_team_sz_top_countries_tied :
  map (fun o => Qred (teams_cnt_rank o))
      (avg_team_sz_top_countries tied_countries 5) =
  [5; 5; 5; 5; 5; 5; 5; 5; 5]%Q /\
  map cs_country (avg_team_sz_top_countries tied_countries 5) =
  ["AR"; "BR"; "CA"; "DE"; "ES"; "FR"; "GB"; "IT"; "JP"]%string /\
  List.length (avg_team_sz_top_countries tied_countries 5) = 9%nat.
Proof. vm_compute. repeat split. Qed.

(** The rows of [daily_summary_figues]: one per day of the table. *)
Lemma daily_summary_figues_In (df : DataFrame) (o : DlySumm) :
  In o (daily_summary_figues df) ->
  (exists r, In r df /\ j_ds r = dly_ds o) /\
  total_active_users o = day_users df (dly_ds o) /\
  total_msgs_mm o = (float_of_int (day_messages df (dly_ds o)) / 1e6)%float /\
  msgs_per_user o =
  (total_msgs_mm o * 1e6 / float_of_int (total_active_users o))%float.
Proof.
  unfold daily_summary_figues. rewrite in_map_iff.
  intros (g & <- & Hg). unfold groupby_ds in Hg. apply groupby_In in Hg.
  destruct Hg as ((r & Hr & Hk) & Hrows). cbn [dly_ds total_active_users
    total_msgs_mm msgs_per_user].
  rewrite (string_rows_filter j_ds) in Hrows.
  unfold day_users, day_messages, day_rows, msgs_mm. rewrite <- Hrows.
  repeat split. exists r. split; [exact Hr | congruence].
Qed.

(** C8, as stated, fails: on a day with one active user and 123 messages the
    ratio computed is not 123 divided by 1. *)
Lemma msgs_per_user_not_exact :
  exists o, In o (daily_summary_figues one_user_day) /\
            total_active_users o <> 0 /\
            msgs_per_user o <>
            (float_of_int (day_messages one_user_day (dly_ds o)) /
             float_of_int (day_users one_user_day (dly_ds o)))%float.
Proof.
  eexists. split; [left; reflexivity |]. split.
  - vm_compute. discriminate.
  - intros H. apply (f_equal (fun x => PrimFloat.eqb x 123%float)) in H.
    vm_compute in H. discriminate H.
Qed.

(** C8, amended.  The ratio is not guarded: on a day whose rows have no
    active user but some messages, [msgs_per_user] is the binary64 infinity,
    and nothing is raised.  For every day of every table, [msgs_per_user] is
    the day's message total divided by 1e6, multiplied by 1e6 and divided by
    the day's total of active users, each operation rounded to binary64. *)
Theorem daily_summary_msgs_per_user :
  (exists o, In o (daily_summary_figues idle_day) /\
             total_active_users o = 0 /\
             day_messages idle_day (dly_ds o) = 5 /\
             msgs_per_user o = infinity) /\
  (forall df o, In o (daily_summary_figues df) ->
     total_active_users o = day_users df (dly_ds o) /\
     msgs_per_user o =
     (float_of_int (day_messages df (dly_ds o)) / 1e6 * 1e6 /
      float_of_int (day_users df (dly_ds o)))%float).
Proof.
  split.
  - eexists. split; [left; reflexivity |]. vm_compute. repeat split.
  - intros df o Ho. apply daily_summary_figues_In in Ho.
    destruct Ho as (_ & Hu & Hmm & Hr). split; [exact Hu |].
    rewrite Hr, Hmm, Hu. reflexivity.
Qed.

(** ** Main script *)

Section MainFacts.
Variable to_datetime : string -> option Z.

(** C9. When the script reaches the aggregators, the working table is the
    joined table without the rows of the teams flagged by
    [check_no_active_users] and of the teams flagged by
    [check_consistent_cohort] on what the first filter left; a row is dropped
    exactly when its team is in one of the two lists.  The three summaries are
    computed from that table, of which the missing dates are only read: the
    table and the summaries are the same whatever dates the cells denote. *)
Theorem main_working_table (act : list ActivityRecord) (ind : list IndustryMap)
  (res : Results) :
  main to_datetime act ind = Some res ->
  let df := read_data act ind in
  let inactive_list := check_no_active_users df in
  exists cohort_chk,
    check_consistent_cohort (drop_teams inactive_list df) = Some cohort_chk /\
    working_df res =
    filter (fun r => negb (isin inactive_list r) && negb (isin cohort_chk r)) df /\
    (forall r, In r (working_df res) <->
               In r df /\ ~ (In (j_team_id r) inactive_list \/
                             In (j_team_id r) cohort_chk)) /\
    check_missing_dates to_datetime (working_df res) = Some (res_missing_dts res) /\
    res_ind_users res = active_users_by_ind (working_df res) /\
    res_cntry_summ res = avg_team_sz_top_countries (working_df res) 5 /\
    res_dly_summ res = daily_summary_figues (working_df res) /\
    (forall to_datetime' res',
        main to_datetime' act ind = Some res' ->
        working_df res' = working_df res /\
        res_ind_users res' = res_ind_users res /\
        res_cntry_summ res' = res_cntry_summ res /\
        res_dly_summ res' = res_dly_summ res).
Proof.
  intros Hmain df inactive_list. unfold main in Hmain.
  fold df in Hmain. fold inactive_list in Hmain.
  destruct (check_consistent_cohort (drop_teams inactive_list df))
    as [cohort_chk|] eqn:Ec; [|discriminate].
  destruct (check_missing_dates to_datetime
              (drop_teams cohort_chk (drop_teams inactive_list df)))
    as [missing_dts|] eqn:Em; [|discriminate].
  inversion Hmain as [Hres]. clear Hmain. cbn [working_df res_missing_dts
    res_ind_users res_cntry_summ res_dly_summ].
  exists cohort_chk. split; [reflexivity |]. split.
  { unfold drop_teams. apply filter_filter_andb. }
  split.
  { intros r. rewrite !drop_teams_In. tauto. }
  split; [exact Em |]. repeat (split; [reflexivity |]).
  intros to_datetime' res' Hmain'. unfold main in Hmain'.
  fold df in Hmain'. fold inactive_list in Hmain'. rewrite Ec in Hmain'.
  destruct (check_missing_dates to_datetime'
              (drop_teams cohort_chk (drop_teams inactive_list df)));
    [|discriminate].
  inversion Hmain'. repeat split.
Qed.
End MainFacts.

Lemma main_working_table_witness :
  exists res,
    main iso_date three_teams plain_map = Some res /\
    map j_team_id (working_df res) = [2; 2] /\
    exists cohort_chk,
      check_consistent_cohort
        (drop_teams (check_no_active_users (read_data three_teams plain_map))
                    (read_data three_teams plain_map)) = Some cohort_chk /\
      working_df res =
      filter (fun r =>
                negb (isin (check_no_active_users
                              (read_data three_teams plain_map)) r) &&
                negb (isin cohort_chk r))
             (read_data three_teams plain_map).
Proof.
  eexists. split; [vm_compute; reflexivity |]. split; [reflexivity |].
  destruct (main_working_table iso_date three_teams plain_map _ eq_refl)
    as (cohort_chk & Hc & Hw & _).
  exists cohort_chk. split; [exact Hc | exact Hw].
Defined.

(** * Further properties of the pipeline *)

(** ** Lists *)

Lemma filter_all_false {A : Type} (f : A -> bool) (l : list A) :
  (forall x, In x l -> f x = false) -> filter f l = [].
Proof.
  induction l as [|x l IH]; intros H; simpl; [reflexivity |].
  rewrite (H x (or_introl eq_refl)). apply IH. intros y Hy. apply H. right. exact Hy.
Qed.

Lemma nil_of_no_member {A : Type} (l : list A) : (forall x, ~ In x l) -> l = [].
Proof.
  destruct l as [|x l]; intros H; [reflexivity |].
  exfalso. apply (H x). left. reflexivity.
Qed.

Lemma map_filter_map {A B C : Type} (f : B -> C) (g : A -> B) (p : B -> bool)
  (l : list A) :
  map f (filter p (map g l)) = map (fun x => f (g x)) (filter (fun x => p (g x)) l).
Proof.
  induction l as [|x l IH]; simpl; [reflexivity |].
  destruct (p (g x)); simpl; rewrite IH; reflexivity.
Qed.

Lemma StronglySorted_filter {A : Type} (R : A -> A -> Prop) (p : A -> bool)
  (l : list A) :
  StronglySorted R l -> StronglySorted R (filter p l).
Proof.
  induction 1 as [|x l Hs IH Hall]; simpl; [constructor |].
  destruct (p x); [|exact IH]. constructor; [exact IH |].
  apply Forall_forall. intros y Hy. apply filter_In in Hy.
  rewrite Forall_forall in Hall. apply Hall, Hy.
Qed.

Lemma StronglySorted_le_lt (l : list Z) :
  StronglySorted Z.le l -> NoDup l -> StronglySorted Z.lt l.
Proof.
  induction 1 as [|x l Hs IH Hall]; intros Hnd; constructor.
  - apply IH. inversion Hnd; assumption.
  - inversion Hnd as [|? ? Hnin _]. subst.
    rewrite Forall_forall in *. intros y Hy.
    specialize (Hall y Hy). assert (x <> y) by (intros ->; contradiction). lia.
Qed.

(** The team ids of a grouped table come in strictly ascending order. *)
Lemma team_keys_ascending (df : DataFrame) :
  StronglySorted Z.lt
    (group_keys Z.eq_dec Z_leb_asc (fun r => Some (j_team_id r)) df).
Proof.
  apply StronglySorted_le_lt; [|apply group_keys_NoDup].
  unfold group_keys. apply sort_by_StronglySorted.
  - intros a b H. unfold Z_leb_asc in *. apply Z.leb_gt in H. apply Z.leb_le. lia.
  - intros a b H. apply Z.leb_le, H.
  - intros a b c. apply Z.le_trans.
Qed.

(** ** Team filters *)

Lemma drop_teams_nil (df : DataFrame) : drop_teams [] df = df.
Proof.
  unfold drop_teams. induction df as [|r df IH]; simpl; [reflexivity |].
  f_equal. exact IH.
Qed.

(** Dropping other teams leaves the rows of a team as they are. *)
Lemma team_rows_drop (l : list Z) (df : DataFrame) (t : Z) :
  ~ In t l ->
  filter (fun r => j_team_id r =? t) (drop_teams l df) =
  filter (fun r => j_team_id r =? t) df.
Proof.
  intros Hn. unfold drop_teams. rewrite filter_filter_andb.
  apply filter_ext. intros r.
  destruct (j_team_id r =? t) eqn:E; [|apply andb_false_r].
  rewrite andb_true_r. apply Z.eqb_eq in E.
  destruct (isin l r) eqn:Ei; [|reflexivity].
  apply isin_In in Ei. rewrite E in Ei. contradiction.
Qed.

Lemma team_count_drop (l : list Z) (df : DataFrame) (t : Z) :
  ~ In t l -> team_count (drop_teams l df) t = team_count df t.
Proof. intros Hn. unfold team_count. rewrite team_rows_drop by exact Hn. reflexivity. Qed.

(** The teams [check_no_active_users] returns, as a filter of the sorted
    team ids. *)
Lemma check_no_active_users_keys (df : DataFrame) :
  exists p,
    check_no_active_users df =
    filter p (group_keys Z.eq_dec Z_leb_asc (fun r => Some (j_team_id r)) df).
Proof.
  unfold check_no_active_users, dau_check, groupby_team_id, groupby.
  rewrite map_map, map_filter_map. cbn [dau_team_id fst].
  eexists. rewrite map_id. reflexivity.
Qed.

(** No team is flagged any more once the flagged teams, and any others, are
    dropped. *)
Lemma check_no_active_users_after_drop (df : DataFrame) (k : list Z) :
  check_no_active_users
    (drop_teams k (drop_teams (check_no_active_users df) df)) = [].
Proof.
  apply nil_of_no_member. intros t Ht.
  set (l := check_no_active_users df) in *.
  apply check_no_active_users_In in Ht.
  destruct Ht as (g & Hg & Et & Hf).
  apply groupby_team_id_In in Hg. destruct Hg as ((r & Hr & Er) & Hrows).
  rewrite Et in *. clear Et.
  apply drop_teams_In in Hr. destruct Hr as (Hr & Hk).
  apply drop_teams_In in Hr. destruct Hr as (Hr & Hl).
  rewrite Er in Hk, Hl.
  rewrite (team_rows_drop k _ t Hk), (team_rows_drop l _ t Hl) in Hrows.
  apply Hl. unfold l. apply check_no_active_users_In.
  exists (t, filter (fun r => j_team_id r =? t) df). split; [|split].
  - apply groupby_team_id_In. simpl. split; [exists r; auto | reflexivity].
  - reflexivity.
  - simpl. rewrite <- Hrows. exact Hf.
Qed.

(** X1. Dropping the teams [check_no_active_users] returns leaves a table on
    which the check returns nothing, also after further teams are dropped. *)
Theorem check_no_active_users_idempotent (df : DataFrame) :
  check_no_active_users (drop_teams (check_no_active_users df) df) = [] /\
  forall k, check_no_active_users
              (drop_teams k (drop_teams (check_no_active_users df) df)) = [].
Proof.
  split; [|intros k; apply check_no_active_users_after_drop].
  rewrite <- (drop_teams_nil (drop_teams (check_no_active_users df) df)).
  apply check_no_active_users_after_drop.
Qed.

(** X2. The list [check_no_active_users] returns is in strictly ascending
    order of team id, hence without repetition, and holds only teams that have
    a row in the table. *)
Theorem check_no_active_users_ascending (df : DataFrame) :
  StronglySorted Z.lt (check_no_active_users df) /\
  NoDup (check_no_active_users df) /\
  forall t, In t (check_no_active_users df) ->
            exists r, In r df /\ j_team_id r = t.
Proof.
  destruct (check_no_active_users_keys df) as (p & E). rewrite E.
  split; [|split].
  - apply StronglySorted_filter, team_keys_ascending.
  - apply NoDup_filter, group_keys_NoDup.
  - intros t Ht. apply filter_In in Ht. destruct Ht as (Ht & _).
    apply group_keys_In in Ht. destruct Ht as (r & Hr & Ek).
    exists r. split; [exact Hr | congruence].
Qed.

Lemma cohort_counts_nil (df : DataFrame) : cohort_counts df = [] -> df = [].
Proof.
  intros E. destruct df as [|r df]; [reflexivity |].
  assert (In (j_team_id r, team_count (r :: df) (j_team_id r))
             (cohort_counts (r :: df))) as H.
  { apply cohort_counts_In. split; [|reflexivity].
    exists r. split; [left; reflexivity | reflexivity]. }
  rewrite E in H. destruct H.
Qed.

Lemma check_consistent_cohort_None (df : DataFrame) :
  check_consistent_cohort df = None <-> df = [].
Proof.
  unfold check_consistent_cohort. split.
  - destruct (py_max (map snd (cohort_counts df))) eqn:E; [discriminate |].
    intros _. apply py_max_None, map_eq_nil in E. apply cohort_counts_nil, E.
  - intros ->. reflexivity.
Qed.

(** The teams [check_consistent_cohort] returns are those whose row count is
    not the largest one. *)
Lemma check_consistent_cohort_In (df : DataFrame) (l : list Z) :
  check_consistent_cohort df = Some l ->
  exists m, max_team_count df m /\
            forall t, In t l <->
                      (exists r, In r df /\ j_team_id r = t) /\
                      team_count df t <> m.
Proof.
  unfold check_consistent_cohort.
  destruct (py_max (map snd (cohort_counts df))) as [m|] eqn:E; [|discriminate].
  intros El. inversion El as [El']. clear El.
  apply py_max_spec in E. destruct E as (Hin & Hle).
  apply in_map_iff in Hin. destruct Hin as ((t0 & c0) & Ec & Hin).
  simpl in Ec. subst c0. apply cohort_counts_In in Hin.
  destruct Hin as ((r0 & Hr0 & Ht0) & Em).
  exists m. split; [split |].
  - exists r0. split; [exact Hr0 |]. rewrite Ht0. symmetry. exact Em.
  - intros t. destruct (In_dec Z.eq_dec t (map j_team_id df)) as [Hi|Hn].
    + apply in_map_iff in Hi. destruct Hi as (r & Et & Hr).
      apply Hle. apply in_map_iff. exists (t, team_count df t). split; [reflexivity |].
      apply cohort_counts_In. split; [exists r; auto | reflexivity].
    + rewrite team_count_absent.
      * rewrite Em. apply team_count_nonneg.
      * intros r Hr Et. apply Hn. apply in_map_iff. exists r. auto.
  - intros t. rewrite in_map_iff. split.
    + intros ((t' & c) & Et & H). simpl in Et. subst t'.
      apply filter_In in H. destruct H as (H & Hc). simpl in Hc.
      apply negb_true_iff, Z.eqb_neq in Hc.
      apply cohort_counts_In in H. destruct H as (Hr & ->). auto.
    + intros (Hr & Hc). exists (t, team_count df t). split; [reflexivity |].
      apply filter_In. split.
      * apply cohort_counts_In. auto.
      * simpl. apply negb_true_iff, Z.eqb_neq. exact Hc.
Qed.

Lemma max_team_count_unique (df : DataFrame) (m m' : Z) :
  max_team_count df m -> max_team_count df m' -> m = m'.
Proof.
  intros ((r & _ & E) & Hle) ((r' & _ & E') & Hle').
  specialize (Hle (j_team_id r')). specialize (Hle' (j_team_id r)). lia.
Qed.

(** Once the flagged teams are dropped, every team left has the largest row
    count, and the check flags nothing. *)
Lemma check_consistent_cohort_after_drop (df : DataFrame) (l : list Z) :
  check_consistent_cohort df = Some l ->
  check_consistent_cohort (drop_teams l df) = Some [].
Proof.
  intros Hl. destruct (check_consistent_cohort_In df l Hl) as (m & Hmax & Hin).
  pose proof Hmax as ((r0 & Hr0 & Em0) & Hle).
  assert (forall r, In r (drop_teams l df) -> team_count df (j_team_id r) = m)
    as Hkept.
  { intros r Hr. apply drop_teams_In in Hr. destruct Hr as (Hr & Hn).
    destruct (Z.eq_dec (team_count df (j_team_id r)) m) as [E|N]; [exact E |].
    exfalso. apply Hn, Hin. split; [exists r; auto | exact N]. }
  assert (In r0 (drop_teams l df)) as Hr0'.
  { apply drop_teams_In. split; [exact Hr0 |]. intros H. apply Hin in H.
    destruct H as (_ & N). contradiction. }
  destruct (check_consistent_cohort (drop_teams l df)) as [l'|] eqn:E.
  - f_equal. apply nil_of_no_member. intros t Ht.
    destruct (check_consistent_cohort_In _ l' E) as (m' & Hmax' & Hin').
    apply Hin' in Ht. destruct Ht as ((r & Hr & Et) & N).
    assert (forall r', In r' (drop_teams l df) ->
                       team_count (drop_teams l df) (j_team_id r') = m) as Hsame.
    { intros r' Hr'. rewrite team_count_drop; [apply Hkept, Hr' |].
      apply drop_teams_In in Hr'. tauto. }
    destruct Hmax' as ((r1 & Hr1 & Em1) & _).
    rewrite (Hsame r1 Hr1) in Em1. subst m'.
    apply N. rewrite <- Et. apply Hsame, Hr.
  - apply check_consistent_cohort_None in E. rewrite E in Hr0'. destruct Hr0'.
Qed.

(** X3. When [check_consistent_cohort] returns a list, dropping its teams
    leaves a non-empty table in which all teams have the same number of rows:
    the check then returns the empty list. *)
Theorem check_consistent_cohort_idempotent (df : DataFrame) (l : list Z) :
  check_consistent_cohort df = Some l ->
  drop_teams l df <> [] /\
  check_consistent_cohort (drop_teams l df) = Some [] /\
  forall r r', In r (drop_teams l df) -> In r' (drop_teams l df) ->
               team_count (drop_teams l df) (j_team_id r) =
               team_count (drop_teams l df) (j_team_id r').
Proof.
  intros Hl. pose proof (check_consistent_cohort_after_drop df l Hl) as Hd.
  split; [|split; [exact Hd |]].
  - intros E. rewrite E in Hd. discriminate Hd.
  - destruct (check_consistent_cohort_In _ _ Hd) as (m & _ & Hin).
    assert (forall r, In r (drop_teams l df) ->
                      team_count (drop_teams l df) (j_team_id r) = m) as Hm.
    { intros r Hr.
      destruct (Z.eq_dec (team_count (drop_teams l df) (j_team_id r)) m)
        as [E|N]; [exact E |].
      exfalso. apply (proj2 (Hin (j_team_id r))). split; [exists r; auto | exact N]. }
    intros r r' Hr Hr'. rewrite (Hm r Hr), (Hm r' Hr'). reflexivity.
Qed.

Lemma check_consistent_cohort_idempotent_witness :
  drop_teams [3] (read_data (skipn 2 three_teams) plain_map) <> [] /\
  check_consistent_cohort
    (drop_teams [3] (read_data (skipn 2 three_teams) plain_map)) = Some [] /\
  forall r r',
    In r (drop_teams [3] (read_data (skipn 2 three_teams) plain_map)) ->
    In r' (drop_teams [3] (read_data (skipn 2 three_teams) plain_map)) ->
    team_count (drop_teams [3] (read_data (skipn 2 three_teams) plain_map))
               (j_team_id r) =
    team_count (drop_teams [3] (read_data (skipn 2 three_teams) plain_map))
               (j_team_id r').
Proof.
  apply (check_consistent_cohort_idempotent
           (read_data (skipn 2 three_teams) plain_map) [3]).
  vm_compute. reflexivity.
Defined.

Lemma check_consistent_cohort_keys (df : DataFrame) (l : list Z) :
  check_consistent_cohort df = Some l ->
  exists p,
    l = filter p (group_keys Z.eq_dec Z_leb_asc (fun r => Some (j_team_id r)) df).
Proof.
  unfold check_consistent_cohort.
  destruct (py_max (map snd (cohort_counts df))) as [m|]; [|discriminate].
  intros E. inversion E as [E']. clear E E'.
  unfold cohort_counts, groupby_team_id, groupby.
  rewrite map_map, map_filter_map. cbn [fst].
  eexists. rewrite map_id. reflexivity.
Qed.

(** X4. The list [check_consistent_cohort] returns is in strictly ascending
    order of team id, hence without repetition, and holds only teams that have
    a row in the table; and the function raises exactly on the empty table. *)
Theorem check_consistent_cohort_ascending (df : DataFrame) :
  (check_consistent_cohort df = None <-> df = []) /\
  forall l, check_consistent_cohort df = Some l ->
            StronglySorted Z.lt l /\ NoDup l /\
            forall t, In t l -> exists r, In r df /\ j_team_id r = t.
Proof.
  split; [apply check_consistent_cohort_None |].
  intros l Hl. destruct (check_consistent_cohort_keys df l Hl) as (p & ->).
  split; [|split].
  - apply StronglySorted_filter, team_keys_ascending.
  - apply NoDup_filter, group_keys_NoDup.
  - intros t Ht. apply filter_In in Ht. destruct Ht as (Ht & _).
    apply group_keys_In in Ht. destruct Ht as (r & Hr & Ek).
    exists r. split; [exact Hr | congruence].
Qed.

(** ** Missing dates *)

Lemma date_range_ascending (n : nat) :
  forall lo hi, Z.to_nat (hi - lo + 1) = n ->
                StronglySorted Z.lt (date_range lo hi).
Proof.
  induction n as [|n IH]; intros lo hi Hn.
  - rewrite date_range_empty by lia. constructor.
  - rewrite date_range_cons by lia. constructor.
    + apply IH. lia.
    + apply Forall_forall. intros d Hd. apply date_range_In in Hd. lia.
Qed.

Section MissingDatesFacts.
Variable to_datetime : string -> option Z.

Lemma to_datetime_all_None (col : list string) :
  to_datetime_all to_datetime col = None <->
  exists s, In s col /\ to_datetime s = None.
Proof.
  induction col as [|s col IH]; simpl.
  - split; [discriminate | intros (s & [] & _)].
  - destruct (to_datetime s) as [d|] eqn:Es.
    + destruct (to_datetime_all to_datetime col) as [rest|].
      * split; [discriminate |]. intros (s' & [<-|Hs'] & E); [congruence |].
        assert (Some rest = None) as H by (apply IH; exists s'; auto).
        discriminate H.
      * split; [|reflexivity]. intros _.
        destruct (proj1 IH eq_refl) as (s' & Hs' & E). exists s'. auto.
    + split; [|reflexivity]. intros _. exists s. auto.
Qed.

Lemma to_datetime_all_length (col : list string) (dates : list Z) :
  to_datetime_all to_datetime col = Some dates ->
  List.length dates = List.length col.
Proof.
  revert dates. induction col as [|s col IH]; intros dates; simpl.
  - intros E. inversion E. reflexivity.
  - destruct (to_datetime s); [|discriminate].
    destruct (to_datetime_all to_datetime col) as [rest|]; [|discriminate].
    intros E. inversion E. simpl. rewrite (IH rest eq_refl). reflexivity.
Qed.

Lemma check_missing_dates_None (df : DataFrame) :
  check_missing_dates to_datetime df = None <->
  df = [] \/ exists r, In r df /\ to_datetime (j_ds r) = None.
Proof.
  unfold check_missing_dates.
  destruct (to_datetime_all to_datetime (map j_ds df)) as [dates|] eqn:Ed.
  - pose proof (to_datetime_all_length _ _ Ed) as Hlen. rewrite length_map in Hlen.
    split.
    + destruct dates as [|d dates]; [|simpl; discriminate].
      intros _. left. destruct df; [reflexivity | discriminate Hlen].
    + intros [->|(r & Hr & E)].
      * destruct dates; [reflexivity | discriminate Hlen].
      * exfalso.
        assert (to_datetime_all to_datetime (map j_ds df) = None) as H.
        { apply to_datetime_all_None. exists (j_ds r).
          split; [apply in_map, Hr | exact E]. }
        congruence.
  - split; [|reflexivity]. intros _. right.
    apply to_datetime_all_None in Ed. destruct Ed as (s & Hs & E).
    apply in_map_iff in Hs. destruct Hs as (r & <- & Hr). exists r. auto.
Qed.

(** X5. [check_missing_dates] raises exactly when the table is empty or one
    of its dates cannot be parsed. *)
Theorem check_missing_dates_raises (df : DataFrame) :
  check_missing_dates to_datetime df = None <->
  df = [] \/ exists r, In r df /\ to_datetime (j_ds r) = None.
Proof. apply check_missing_dates_None. Qed.

(** X6. The dates [check_missing_dates] returns are exactly the days that lie
    between two dates of the table and are not themselves a date of the
    table; they come in strictly ascending order. *)
Theorem check_missing_dates_spec (df : DataFrame) (missing_dts : list Z) :
  check_missing_dates to_datetime df = Some missing_dts ->
  (forall d, In d missing_dts <->
             (exists d1 d2, observed to_datetime df d1 /\
                            observed to_datetime df d2 /\ d1 <= d <= d2) /\
             ~ observed to_datetime df d) /\
  StronglySorted Z.lt missing_dts.
Proof.
  unfold check_missing_dates.
  destruct (to_datetime_all to_datetime (map j_ds df)) as [dates|] eqn:Ed;
    [|discriminate].
  assert (forall d, In d dates <-> observed to_datetime df d) as Hobs.
  { intros d. rewrite (to_datetime_all_In _ _ _ Ed d). unfold observed. split.
    - intros (s & Hs & E). apply in_map_iff in Hs.
      destruct Hs as (r & <- & Hr). exists r. auto.
    - intros (r & Hr & E). exists (j_ds r). split; [apply in_map, Hr | exact E]. }
  destruct (py_min dates) as [lo|] eqn:Emin; [|discriminate].
  destruct (py_max dates) as [hi|] eqn:Emax; [|discriminate].
  intros E. inversion E as [E']. clear E E'.
  apply py_min_spec in Emin. destruct Emin as (Hlo & Hmin).
  apply py_max_spec in Emax. destruct Emax as (Hhi & Hmax).
  split.
  - intros d. rewrite filter_In, date_range_In, negb_true_iff. split.
    + intros (Hd & Hex). split.
      * exists lo, hi. repeat split; try apply Hobs; try assumption; lia.
      * intros Ho. apply Hobs in Ho.
        assert (existsb (Z.eqb d) dates = true) as Ht
          by (apply existsb_exists; exists d; split; [exact Ho | apply Z.eqb_refl]).
        congruence.
    + intros ((d1 & d2 & H1 & H2 & Hd) & Hno). split.
      * apply Hobs in H1, H2. specialize (Hmin d1 H1). specialize (Hmax d2 H2). lia.
      * destruct (existsb (Z.eqb d) dates) eqn:Ex; [|reflexivity].
        apply existsb_exists in Ex. destruct Ex as (d' & Hd' & E).
        apply Z.eqb_eq in E. subst d'. exfalso. apply Hno, Hobs, Hd'.
  - apply StronglySorted_filter. apply (date_range_ascending _ lo hi eq_refl).
Qed.
End MissingDatesFacts.

Lemma check_missing_dates_spec_witness :
  (forall d, In d [18334] <->
             (exists d1 d2, observed iso_date march_gap d1 /\
                            observed iso_date march_gap d2 /\ d1 <= d <= d2) /\
             ~ observed iso_date march_gap d) /\
  StronglySorted Z.lt [18334].
Proof.
  apply (check_missing_dates_spec iso_date march_gap [18334]).
  vm_compute. reflexivity.
Defined.

(** ** Loader *)

Lemma matches_conform_length (ind : list IndustryMap) (a : ActivityRecord) :
  List.length (matches (conform ind) a) = List.length (matches ind a).
Proof. rewrite matches_conform. unfold conform. apply length_map. Qed.

(** X7. Without any assumption on the industry map, the joined table holds
    each activity row once per industry-map row with its [industry_id], and
    once when there is none: no activity row is lost, none is invented, and
    the table is at least as long as the activity table. *)
Theorem read_data_fan_out (act : list ActivityRecord) (ind : list IndustryMap) :
  List.length (read_data act ind) =
  list_sum (map (fun a => Nat.max 1 (List.length (matches ind a))) act) /\
  (forall a, In a act <-> exists j, In j (read_data act ind) /\ activity j = a) /\
  (List.length act <= List.length (read_data act ind))%nat.
Proof.
  assert (List.length (read_data act ind) =
          list_sum (map (fun a => Nat.max 1 (List.length (matches ind a))) act))
    as Hlen.
  { unfold read_data, merge_left.
    set (f := fun a : ActivityRecord =>
                match matches (conform ind) a with
                | [] => [mkJoined a None]
                | ms => map (fun i => mkJoined a (Some (map_industry i))) ms
                end).
    induction act as [|a act IH]; [reflexivity |].
    change (flat_map f (a :: act)) with (f a ++ flat_map f act).
    unfold list_sum in *. cbn [map fold_right]. rewrite length_app, IH. f_equal.
    rewrite <- (matches_conform_length ind a). unfold f.
    destruct (matches (conform ind) a) as [|i ms]; [reflexivity |].
    rewrite length_map. reflexivity. }
  split; [exact Hlen |]. split.
  - intros a. split.
    + intros Ha. unfold read_data.
      destruct (matches (conform ind) a) as [|i ms] eqn:E.
      * exists (mkJoined a None). split; [|reflexivity].
        apply merge_left_In. simpl. split; [exact Ha |]. left. auto.
      * exists (mkJoined a (Some (map_industry i))). split; [|reflexivity].
        apply merge_left_In. simpl. split; [exact Ha |]. right.
        exists i. rewrite E. split; [left; reflexivity | reflexivity].
    + intros (j & Hj & <-). unfold read_data in Hj.
      apply merge_left_In in Hj. apply Hj.
  - rewrite Hlen. clear Hlen.
    unfold list_sum.
    induction act as [|a act IH]; cbn [map fold_right List.length]; lia.
Qed.

(** *** Occurrences of "Health Care" *)

Lemma prefix_app_refl (p v : string) : String.prefix p (p ++ v) = true.
Proof.
  induction p as [|a p IH]; simpl.
  - destruct v; reflexivity.
  - destruct (ascii_dec a a) as [_|N]; [exact IH | contradiction].
Qed.

Lemma conform_industry_length_le_len (n : nat) :
  forall s, (String.length s < n)%nat ->
            (String.length (conform_industry s) <= String.length s)%nat.
Proof.
  induction n as [|n IH]; intros s Hlen; [lia |].
  destruct s as [|c s]; [simpl; lia |].
  destruct (String.prefix "Health Care" (String c s)) eqn:Em.
  - apply prefix_split in Em. destruct Em as (t & Et). rewrite Et in *.
    rewrite conform_industry_match, !string_length_app.
    rewrite string_length_app in Hlen. simpl in Hlen. simpl.
    assert (String.length (conform_industry t) <= String.length t)%nat
      by (apply IH; lia).
    lia.
  - rewrite (conform_industry_step c s Em). simpl.
    assert (String.length (conform_industry s) <= String.length s)%nat
      by (apply IH; simpl in Hlen; lia).
    lia.
Qed.

Lemma conform_industry_length_le (s : string) :
  (String.length (conform_industry s) <= String.length s)%nat.
Proof. apply (conform_industry_length_le_len (S (String.length s))). lia. Qed.

(** A name in which "Health Care" occurs gets strictly shorter. *)
Lemma conform_industry_length_lt (s : string) :
  occurs_in "Health Care" s ->
  (String.length (conform_industry s) < String.length s)%nat.
Proof.
  intros (u & v & ->). induction u as [|c u IH].
  - change ("" ++ "Health Care" ++ v)%string with ("Health Care" ++ v)%string.
    rewrite conform_industry_match, !string_length_app.
    pose proof (conform_industry_length_le v). simpl. lia.
  - change (String c u ++ "Health Care" ++ v)%string
      with (String c (u ++ "Health Care" ++ v))%string.
    destruct (String.prefix "Health Care" (String c (u ++ "Health Care" ++ v)))
      eqn:Em.
    + apply prefix_split in Em. destruct Em as (t & Et). rewrite Et.
      rewrite conform_industry_match, !string_length_app.
      pose proof (conform_industry_length_le t). simpl. lia.
    + rewrite (conform_industry_step _ _ Em). cbn [String.length]. lia.
Qed.

(** A name in which "Health Care" does not occur is left as it is. *)
Lemma conform_industry_unchanged (s : string) :
  ~ occurs_in "Health Care" s -> conform_industry s = s.
Proof.
  induction s as [|c s IH]; intros Hno; [reflexivity |].
  destruct (String.prefix "Health Care" (String c s)) eqn:Em.
  - exfalso. apply Hno. apply prefix_split in Em. destruct Em as (t & Et).
    exists ""%string, t. exact Et.
  - rewrite (conform_industry_step c s Em). f_equal. apply IH.
    intros (u & v & Es). apply Hno. exists (String c u), v. rewrite Es. reflexivity.
Qed.

(** X8. In a conformed industry name "Health Care" occurs nowhere, and the
    conformed name is never longer than the original. *)
Theorem conform_industry_clean (s : string) :
  ~ occurs_in "Health Care" (conform_industry s) /\
  (String.length (conform_industry s) <= String.length s)%nat.
Proof.
  split; [|apply conform_industry_length_le].
  intros Hocc. apply conform_industry_length_lt in Hocc.
  rewrite conform_industry_idempotent in Hocc. lia.
Qed.

(** X9. The normalisation changes a name exactly when "Health Care" occurs in
    it. *)
Theorem conform_industry_fixed_iff (s : string) :
  conform_industry s = s <-> ~ occurs_in "Health Care" s.
Proof.
  split.
  - intros E Hocc. apply conform_industry_length_lt in Hocc.
    rewrite E in Hocc. lia.
  - apply conform_industry_unchanged.
Qed.

(** ** Aggregators *)

Lemma string_leb_total (a b : string) :
  String.leb a b = false -> String.leb b a = true.
Proof. intros H. destruct (String.leb_total a b) as [E|E]; congruence. Qed.

Lemma nodup_length_le {A : Type} (dec : forall a b : A, {a = b} + {a <> b})
  (l : list A) :
  (List.length (nodup dec l) <= List.length l)%nat.
Proof.
  apply NoDup_incl_length; [apply NoDup_nodup |].
  intros x Hx. apply nodup_In in Hx. exact Hx.
Qed.

Lemma agg_nunique_bounds (l : list Z) :
  l <> [] -> 1 <= agg_nunique l <= agg_count l.
Proof.
  intros Hne. unfold agg_nunique, agg_count.
  pose proof (nodup_length_le Z.eq_dec l) as Hle.
  destruct (nodup Z.eq_dec l) as [|x t] eqn:E.
  - destruct l as [|y l]; [contradiction |].
    assert (In y (nodup Z.eq_dec (y :: l))) as H
      by (apply nodup_In; left; reflexivity).
    rewrite E in H. destruct H.
  - simpl List.length in *. lia.
Qed.

Lemma daily_summary_figues_ds (df : DataFrame) :
  map dly_ds (daily_summary_figues df) =
  group_keys string_dec String.leb (fun r => Some (j_ds r)) df.
Proof.
  unfold daily_summary_figues, groupby_ds, groupby. rewrite !map_map.
  cbn [dly_ds fst]. apply map_id.
Qed.

(** X10. [daily_summary_figues] has one row for each date that occurs in the
    table and none for any other: the dates of its rows are in ascending
    order, no date comes twice, and they are the dates of the table. *)
Theorem daily_summary_figues_dates (df : DataFrame) :
  Sorted (fun a b => String.leb a b = true) (map dly_ds (daily_summary_figues df)) /\
  NoDup (map dly_ds (daily_summary_figues df)) /\
  forall d, In d (map dly_ds (daily_summary_figues df)) <->
            exists r, In r df /\ j_ds r = d.
Proof.
  rewrite daily_summary_figues_ds. split; [|split].
  - unfold group_keys. apply sort_by_sorted. apply string_leb_total.
  - apply group_keys_NoDup.
  - intros d. rewrite group_keys_In. split; intros (r & Hr & E); exists r;
      (split; [exact Hr | congruence]).
Qed.

(** X11. In every row of [daily_summary_figues] the number of distinct teams
    is at least 1 and at most the number of rows of that day. *)
Theorem daily_summary_figues_countd_teams (df : DataFrame) :
  Forall (fun o => 1 <= dly_countd_teams o <=
                   Z.of_nat (List.length (day_rows df (dly_ds o))))
         (daily_summary_figues df).
Proof.
  apply Forall_forall.
  intros o Ho. unfold daily_summary_figues in Ho. apply in_map_iff in Ho.
  destruct Ho as (g & <- & Hg). cbn [dly_countd_teams dly_ds].
  pose proof (groupby_nonempty _ _ _ _ _ Hg) as Hne.
  unfold groupby_ds in Hg. apply groupby_In in Hg. destruct Hg as (_ & Hrows).
  rewrite (string_rows_filter j_ds) in Hrows. unfold day_rows. rewrite <- Hrows.
  pose proof (agg_nunique_bounds (map j_team_id (snd g))) as H.
  unfold agg_count in H. rewrite length_map in H. apply H.
  intros E. apply map_eq_nil in E. contradiction.
Qed.

Lemma active_users_by_ind_industries (df : DataFrame) :
  Permutation (map iu_industry (active_users_by_ind df))
              (group_keys string_dec String.leb industry
                          (filter (in_window "2020-07-25") df)).
Proof.
  unfold active_users_by_ind.
  eapply perm_trans; [apply Permutation_map, sort_by_perm |].
  unfold groupby_industry, groupby. rewrite !map_map. cbn [iu_industry fst].
  rewrite map_id. apply Permutation_refl.
Qed.

(** X12. [active_users_by_ind] has exactly one row for each industry name
    carried by a row dated 2020-07-25 or later, and no other row. *)
Theorem active_users_by_ind_one_row_each (df : DataFrame) :
  NoDup (map iu_industry (active_users_by_ind df)) /\
  forall name,
    In name (map iu_industry (active_users_by_ind df)) <->
    exists r, In r df /\ in_window "2020-07-25" r = true /\
              industry r = Some name.
Proof.
  pose proof (active_users_by_ind_industries df) as Hp. split.
  - eapply Permutation_NoDup; [apply Permutation_sym, Hp |].
    apply group_keys_NoDup.
  - intros name. split.
    + intros H. apply (Permutation_in _ Hp) in H. apply group_keys_In in H.
      destruct H as (r & Hr & E). apply filter_In in Hr. exists r. tauto.
    + intros (r & Hr & Hw & E).
      apply (Permutation_in _ (Permutation_sym Hp)). apply group_keys_In.
      exists r. split; [apply filter_In; auto | exact E].
Qed.

(** *** How many countries are returned *)

Lemma Permutation_filter_length {A : Type} (p : A -> bool) (l l' : list A) :
  Permutation l l' -> List.length (filter p l) = List.length (filter p l').
Proof.
  induction 1 as [|x l l' _ IH|x y l|l l' l'' _ IH1 _ IH2]; simpl.
  - reflexivity.
  - destruct (p x); simpl; rewrite IH; reflexivity.
  - destruct (p x), (p y); reflexivity.
  - rewrite IH1. exact IH2.
Qed.

Lemma filter_map_length {A B : Type} (f : A -> B) (p : B -> bool) (l : list A) :
  List.length (filter p (map f l)) = List.length (filter (fun x => p (f x)) l).
Proof.
  induction l as [|x l IH]; simpl; [reflexivity |].
  destruct (p (f x)); simpl; rewrite IH; reflexivity.
Qed.

Lemma filter_length_le {A : Type} (p q : A -> bool) (l : list A) :
  (forall x, In x l -> p x = true -> q x = true) ->
  (List.length (filter p l) <= List.length (filter q l))%nat.
Proof.
  induction l as [|x l IH]; intros H; simpl; [lia |].
  assert (List.length (filter p l) <= List.length (filter q l))%nat as Hle
    by (apply IH; intros y Hy; apply H; right; exact Hy).
  destruct (p x) eqn:Ep.
  - rewrite (H x (or_introl eq_refl) Ep). simpl. lia.
  - destruct (q x); simpl; lia.
Qed.

(** The values no smaller than [v] are the larger ones and the equal ones. *)
Lemma count_ge_split (col : list Z) (v : Z) :
  List.length (filter (fun x => v <=? x) col) =
  Nat.add (List.length (filter (fun x => v <? x) col))
          (List.length (filter (fun x => x =? v) col)).
Proof.
  induction col as [|x col IH]; simpl; [reflexivity |].
  destruct (v <=? x) eqn:E1; destruct (v <? x) eqn:E2; destruct (x =? v) eqn:E3;
    simpl; try lia;
    try apply Z.leb_le in E1; try apply Z.leb_gt in E1;
    try apply Z.ltb_lt in E2; try apply Z.ltb_ge in E2;
    try apply Z.eqb_eq in E3; try apply Z.eqb_neq in E3; lia.
Qed.

Lemma count_eq_NoDup (col : list Z) (v : Z) :
  NoDup col -> In v col ->
  List.length (filter (fun x => x =? v) col) = 1%nat.
Proof.
  induction 1 as [|x col Hnin Hnd IH]; intros Hin; [destruct Hin |]. simpl.
  destruct (x =? v) eqn:E.
  - apply Z.eqb_eq in E. subst x. simpl. f_equal.
    rewrite filter_all_false; [reflexivity |].
    intros y Hy. apply Z.eqb_neq. intros ->. contradiction.
  - apply IH. destruct Hin as [->|Hin]; [|exact Hin].
    rewrite Z.eqb_refl in E. discriminate.
Qed.

(** The number of rows returned is the number of counts whose rank is at
    most [top_n]. *)
Lemma avg_team_sz_top_countries_length (df : DataFrame) (top_n : Z) :
  List.length (avg_team_sz_top_countries df top_n) =
  List.length
    (filter (fun v => Qle_bool (rank_desc (month_team_counts df) v)
                               (inject_Z top_n))
            (month_team_counts df)).
Proof.
  unfold avg_team_sz_top_countries. rewrite sort_by_length.
  rewrite (Permutation_filter_length _ _ _ (sort_by_perm _ _)).
  rewrite filter_map_length. cbn [teams_cnt_rank].
  rewrite filter_map_length. cbn [fst snd].
  unfold month_team_counts. rewrite filter_map_length, !map_map. cbn [fst snd].
  reflexivity.
Qed.

(** When some count is selected, the selected counts are among those no
    smaller than the smallest selected one. *)
Lemma rank_filter_count (col : list Z) (top_n : Z) :
  filter (fun v => Qle_bool (rank_desc col v) (inject_Z top_n)) col = [] \/
  exists v,
    In v col /\
    2 * Z.of_nat (List.length (filter (fun x => v <? x) col)) +
    Z.of_nat (List.length (filter (fun x => x =? v) col)) + 1 <= 2 * top_n /\
    Nat.le
      (List.length (filter (fun v => Qle_bool (rank_desc col v) (inject_Z top_n))
                           col))
      (Nat.add (List.length (filter (fun x => v <? x) col))
               (List.length (filter (fun x => x =? v) col))).
Proof.
  set (sel := fun v => Qle_bool (rank_desc col v) (inject_Z top_n)).
  destruct (py_min (filter sel col)) as [v|] eqn:Emin.
  - right. apply py_min_spec in Emin. destruct Emin as (Hv & Hmin).
    apply filter_In in Hv. destruct Hv as (Hv & Hsel).
    exists v. split; [exact Hv |]. split.
    + unfold sel in Hsel. apply Qle_bool_iff in Hsel.
      unfold rank_desc, Qle, inject_Z in Hsel. cbn [Qnum Qden] in Hsel. lia.
    + rewrite <- count_ge_split. apply filter_length_le.
      intros x Hx Hsx. apply Z.leb_le. apply Hmin. apply filter_In. auto.
  - left. destruct (filter sel col); [reflexivity | discriminate].
Qed.

(** X13. [avg_team_sz_top_countries] returns fewer than twice [top_n]
    countries, and none when [top_n] is zero or negative; the ties that share
    a rank are what lets it return more than [top_n]. *)
Theorem avg_team_sz_top_countries_bound (df : DataFrame) (top_n : Z) :
  Z.of_nat (List.length (avg_team_sz_top_countries df top_n)) <=
  Z.max 0 (2 * top_n - 1).
Proof.
  rewrite avg_team_sz_top_countries_length.
  destruct (rank_filter_count (month_team_counts df) top_n)
    as [->|(v & Hv & Hrank & Hlen)]; [simpl; lia |].
  assert (0 < Z.of_nat (List.length (filter (fun x => x =? v)
                                            (month_team_counts df)))) as Heq.
  { destruct (filter (fun x => x =? v) (month_team_counts df)) as [|y l] eqn:E.
    - assert (In v (filter (fun x => x =? v) (month_team_counts df))) as Hin
        by (apply filter_In; split; [exact Hv | apply Z.eqb_refl]).
      rewrite E in Hin. destruct Hin.
    - simpl List.length. lia. }
  lia.
Qed.

(** X14. When no two countries of the window have the same number of
    distinct teams, [avg_team_sz_top_countries] returns at most [top_n]
    countries. *)
Theorem avg_team_sz_top_countries_no_ties (df : DataFrame) (top_n : Z) :
  NoDup (month_team_counts df) ->
  Z.of_nat (List.length (avg_team_sz_top_countries df top_n)) <= Z.max 0 top_n.
Proof.
  intros Hnd. rewrite avg_team_sz_top_countries_length.
  destruct (rank_filter_count (month_team_counts df) top_n)
    as [->|(v & Hv & Hrank & Hlen)]; [simpl; lia |].
  rewrite (count_eq_NoDup _ v Hnd Hv) in Hrank, Hlen. lia.
Qed.

Lemma avg_team_sz_top_countries_no_ties_witness :
  Z.of_nat (List.length (avg_team_sz_top_countries two_countries 1)) <=
  Z.max 0 1.
Proof.
  apply (avg_team_sz_top_countries_no_ties two_countries 1).
  vm_compute. repeat constructor; simpl; intuition discriminate.
Defined.


(** ** Main script *)

Section MainInvariants.
Variable to_datetime : string -> option Z.

(** X16. The table the script hands to the aggregators is not empty and
    passes both team checks: [check_no_active_users] flags none of its teams,
    and [check_consistent_cohort] flags none, all its teams having the same
    number of rows.  Every date in it can be parsed. *)
Theorem main_working_table_clean (act : list ActivityRecord)
  (ind : list IndustryMap) (res : Results) :
  main to_datetime act ind = Some res ->
  working_df res <> [] /\
  check_no_active_users (working_df res) = [] /\
  check_consistent_cohort (working_df res) = Some [] /\
  forall r, In r (working_df res) -> to_datetime (j_ds r) <> None.
Proof.
  unfold main.
  destruct (check_consistent_cohort
              (drop_teams (check_no_active_users (read_data act ind))
                          (read_data act ind))) as [cohort_chk|] eqn:Ec;
    [|discriminate].
  destruct (check_missing_dates to_datetime
              (drop_teams cohort_chk
                 (drop_teams (check_no_active_users (read_data act ind))
                             (read_data act ind)))) as [missing_dts|] eqn:Em;
    [|discriminate].
  intros E. inversion E as [E']. clear E E'. cbn [working_df].
  pose proof (check_consistent_cohort_after_drop _ _ Ec) as Hc.
  split; [|split; [|split]].
  - intros En. rewrite En in Hc. discriminate Hc.
  - apply check_no_active_users_after_drop.
  - exact Hc.
  - intros r Hr En.
    assert (check_missing_dates to_datetime
              (drop_teams cohort_chk
                 (drop_teams (check_no_active_users (read_data act ind))
                             (read_data act ind))) = None) as Hn.
    { apply check_missing_dates_None. right. exists r. auto. }
    congruence.
Qed.

(** X17. The script stops before the aggregators in exactly two cases: every
    team of the joined table is flagged by [check_no_active_users] (so also
    when the table is empty), or a date of a row that passes both filters
    cannot be parsed. *)
Theorem main_raises (act : list ActivityRecord) (ind : list IndustryMap) :
  main to_datetime act ind = None <->
  drop_teams (check_no_active_users (read_data act ind)) (read_data act ind) = []
  \/ exists cohort_chk r,
       check_consistent_cohort
         (drop_teams (check_no_active_users (read_data act ind))
                     (read_data act ind)) = Some cohort_chk /\
       In r (drop_teams cohort_chk
               (drop_teams (check_no_active_users (read_data act ind))
                           (read_data act ind))) /\
       to_datetime (j_ds r) = None.
Proof.
  unfold main.
  destruct (check_consistent_cohort
              (drop_teams (check_no_active_users (read_data act ind))
                          (read_data act ind))) as [cohort_chk|] eqn:Ec.
  - pose proof (check_consistent_cohort_after_drop _ _ Ec) as Hc.
    destruct (check_missing_dates to_datetime
                (drop_teams cohort_chk
                   (drop_teams (check_no_active_users (read_data act ind))
                               (read_data act ind)))) as [missing_dts|] eqn:Em.
    + split; [discriminate |]. intros [En|(c & r & Ec' & Hr & En)].
      * rewrite En in Ec. discriminate Ec.
      * exfalso. inversion Ec'. subst c.
        assert (check_missing_dates to_datetime
                  (drop_teams cohort_chk
                     (drop_teams (check_no_active_users (read_data act ind))
                                 (read_data act ind))) = None) as Hn
          by (apply check_missing_dates_None; right; exists r; auto).
        congruence.
    + split; [|reflexivity]. intros _. right.
      apply check_missing_dates_None in Em. destruct Em as [En|(r & Hr & En)].
      * rewrite En in Hc. discriminate Hc.
      * exists cohort_chk, r. auto.
  - split; [|reflexivity]. intros _. left.
    apply check_consistent_cohort_None, Ec.
Qed.
End MainInvariants.

Lemma main_working_table_clean_witness :
  exists res,
    main iso_date three_teams plain_map = Some res /\
    working_df res <> [] /\
    check_no_active_users (working_df res) = [] /\
    check_consistent_cohort (working_df res) = Some [] /\
    forall r, In r (working_df res) -> iso_date (j_ds r) <> None.
Proof.
  eexists. split; [vm_compute; reflexivity |].
  apply (main_working_table_clean iso_date three_teams plain_map).
  vm_compute. reflexivity.
Defined.

(** ** How the filters and the aggregators compose *)

Lemma wrap64_range (z : Z) : - 2 ^ 63 <= wrap64 z < 2 ^ 63.
Proof.
  unfold wrap64.
  change (2 ^ 63) with 9223372036854775808.
  change (2 ^ 64) with 18446744073709551616.
  Z.div_mod_to_equations. lia.
Qed.

Lemma wrap64_small (z : Z) : - 2 ^ 63 <= z < 2 ^ 63 -> wrap64 z = z.
Proof.
  unfold wrap64.
  change (2 ^ 63) with 9223372036854775808.
  change (2 ^ 64) with 18446744073709551616.
  intros H. Z.div_mod_to_equations. lia.
Qed.

(** Leaving out rows whose [active_users] is 0 does not change a sum. *)
Lemma agg_sum_drop_zeros (keep : JoinedRecord -> bool) (rows : list JoinedRecord) :
  (forall r, In r rows -> keep r = false -> j_active_users r = 0) ->
  agg_sum (map j_active_users (filter keep rows)) =
  agg_sum (map j_active_users rows).
Proof.
  unfold agg_sum. intros Hz.
  assert (forall s, - 2 ^ 63 <= s < 2 ^ 63 ->
            fold_left (fun s x => wrap64 (s + x))
                      (map j_active_users (filter keep rows)) s =
            fold_left (fun s x => wrap64 (s + x)) (map j_active_users rows) s)
    as H.
  { induction rows as [|r rows IH]; intros s Hs; [reflexivity |].
    assert (forall r', In r' rows -> keep r' = false -> j_active_users r' = 0)
      as Hz' by (intros r' Hr'; apply Hz; right; exact Hr').
    cbn [filter map fold_left]. destruct (keep r) eqn:Ek.
    - cbn [map fold_left]. apply (IH Hz'), wrap64_range.
    - rewrite (Hz r (or_introl eq_refl) Ek), Z.add_0_r, (wrap64_small s Hs).
      apply (IH Hz'), Hs. }
  apply H. change (2 ^ 63) with 9223372036854775808. lia.
Qed.

(** With non-negative counts, every row of a flagged team has no active
    user. *)
Lemma inactive_rows_zero (df : DataFrame) (r : JoinedRecord) :
  (forall r, In r df -> 0 <= j_active_users r < 2 ^ 63) ->
  In r df -> In (j_team_id r) (check_no_active_users df) ->
  j_active_users r = 0.
Proof.
  intros Hnn Hr Ht. apply check_no_active_users_In in Ht.
  destruct Ht as (g & Hg & Et & Hf).
  destruct (dau_max_spec df g Hg) as ((r' & Hr' & _ & Hm) & Hle).
  assert (0 <= agg_max (map j_active_users (snd g)) < 2 ^ 63) as Hrange
    by (rewrite <- Hm; apply Hnn, Hr').
  apply (proj1 (wrap64_double_zero _ Hrange)) in Hf.
  specialize (Hle r Hr (eq_sym Et)). specialize (Hnn r Hr). lia.
Qed.

(** X18. When every [active_users] is a non-negative int64 value, dropping
    the teams [check_no_active_users] returns changes no day's total of
    active users: the column [total_active_users] of the daily summary is the
    same for every date with or without that filter. *)
Theorem drop_inactive_keeps_day_users (df : DataFrame) :
  (forall r, In r df -> 0 <= j_active_users r < 2 ^ 63) ->
  forall d, day_users (drop_teams (check_no_active_users df) df) d =
            day_users df d.
Proof.
  intros Hnn d. unfold day_users, day_rows, drop_teams.
  rewrite filter_filter_andb.
  rewrite (filter_ext _ (fun r => String.eqb (j_ds r) d &&
                                  negb (isin (check_no_active_users df) r)))
    by (intros r; apply andb_comm).
  rewrite <- filter_filter_andb.
  apply agg_sum_drop_zeros. intros r Hr Hk.
  apply filter_In in Hr. destruct Hr as (Hr & _).
  apply negb_false_iff, isin_In in Hk.
  apply (inactive_rows_zero df r Hnn Hr Hk).
Qed.

Lemma drop_inactive_keeps_day_users_witness :
  day_users (drop_teams (check_no_active_users two_teams) two_teams)
            "2020-07-25" =
  day_users two_teams "2020-07-25".
Proof.
  apply (drop_inactive_keeps_day_users two_teams).
  each_row ltac:(vm_compute; split; [discriminate | reflexivity]).
Defined.

(** X19. Raising [top_n] never removes a country: every row returned for
    [top_n] is returned for any larger value. *)
Theorem avg_team_sz_top_countries_monotone (df : DataFrame) (top_n top_n' : Z) :
  top_n <= top_n' ->
  incl (avg_team_sz_top_countries df top_n)
       (avg_team_sz_top_countries df top_n').
Proof.
  intros Hle o Ho. apply avg_team_sz_top_countries_In in Ho.
  destruct Ho as (Hg & Hrank). apply avg_team_sz_top_countries_In.
  split; [exact Hg |]. apply Qle_bool_iff in Hrank. apply Qle_bool_iff.
  eapply Qle_trans; [exact Hrank |].
  unfold Qle, inject_Z. cbn [Qnum Qden]. lia.
Qed.

Lemma avg_team_sz_top_countries_monotone_witness :
  incl (avg_team_sz_top_countries tied_countries 5)
       (avg_team_sz_top_countries tied_countries 6).
Proof.
  apply (avg_team_sz_top_countries_monotone tied_countries 5 6). lia.
Defined.
